(** * wise-agents: shared context, registry and request routing

    A shallow embedding of [src/wiseagents/core.py]: the conversation
    context [WiseAgentContext], the process-wide [WiseAgentRegistry] and the
    request/response handling of [WiseAgent].

    Both storage backends of the source are modelled.  The in-process backend
    keeps its state in class-level attributes, which every instance shares.
    The Redis backend talks to one key-value server; it is modelled for a
    single client at a time, so a WATCH/MULTI/EXEC transaction always commits
    and every [while True] retry loop runs its body once.  [pickle.dumps]
    followed by [pickle.loads] yields an equal, fresh value, so a pickled
    value is modelled by the value itself. *)

From stdpp Require Import gmap strings list fin_maps.
From Stdlib Require Import ZArith.

Set Default Proof Using "Type".
Open Scope string_scope.
Open Scope list_scope.

(** ** Python values *)

(** The exceptions the modelled code can raise.  [DataError] is the one
    redis-py raises when it is asked to encode [None]. *)
Inductive exn :=
  | NameError | AttributeError | KeyError | IndexError
  | ValueError | TypeError | DataError.

(** A Python [str] or [bytes] object.  The Redis connections are opened
    without [decode_responses], so list elements read back from the server
    are [bytes] (the source itself calls [.decode('utf-8')] on what
    [hgetall] and [hget] return).  A [str] never equals a [bytes]. *)
Inductive pystr :=
  | PyStr (s : string)
  | PyBytes (s : string).

#[global] Instance pystr_eq_dec : EqDecision pystr.
Proof. solve_decision. Defined.

#[global] Instance WiseAgentContext_exn_eq_dec : EqDecision exn.
Proof. solve_decision. Defined.

(** [x in l] *)
Definition py_in {A} `{EqDecision A} (x : A) (l : list A) : bool :=
  bool_decide (x ∈ l).

(** [l.index(x)]: position of the first occurrence. *)
Fixpoint py_index {A} `{EqDecision A} (x : A) (l : list A) : option nat :=
  match l with
  | [] => None
  | y :: l' => if decide (x = y) then Some 0 else S <$> py_index x l'
  end.

(** [l.remove(x)]: drops the first occurrence; [None] stands for the
    [ValueError] Python raises when [x] is not in [l]. *)
Fixpoint py_remove {A} `{EqDecision A} (x : A) (l : list A) : option (list A) :=
  match l with
  | [] => None
  | y :: l' => if decide (x = y) then Some l' else (y ::.) <$> py_remove x l'
  end.

(** [l[i]] with Python's negative indices; [None] stands for [IndexError]. *)
Definition py_getitem {A} (l : list A) (i : Z) : option A :=
  if (0 <=? i)%Z then l !! Z.to_nat i
  else if (- Z.of_nat (length l) <=? i)%Z
       then l !! Z.to_nat (Z.of_nat (length l) + i)
       else None.

(** Truth value of an [Optional[str]]: [None] and the empty string are false. *)
Definition py_truthy (s : option string) : bool :=
  match s with
  | Some s => negb (String.eqb s "")
  | None => false
  end.

(** ** Data model *)

Inductive WiseAgentCollaborationType :=
  | SEQUENTIAL | PHASED | INDEPENDENT | CHAT.

#[global] Instance WiseAgentCollaborationType_eq_dec :
  EqDecision WiseAgentCollaborationType.
Proof. solve_decision. Defined.

(** Modelled from the spec: the module [wise_agent_messaging] (message, message
    type and transport classes) is not among the sources.  The spec gives a
    message the fields sender, context_name, chat_id, type and content, and
    the type enum REQUEST, RESPONSE, ACK, EVENT.  [message_type] is optional
    because [handle_response] builds most messages without one. *)
Inductive WiseAgentMessageType :=
  | REQUEST | RESPONSE | ACK | EVENT.

Record WiseAgentMessage := {
  message : string;
  message_type : option WiseAgentMessageType;
  sender : string;
  context_name : string;
  chat_id : option string;
}.

(** A chat completion message, the dict [{"role": ..., "content": ...}]. *)
Record ChatCompletionMessageParam := {
  role : string;
  content : string;
}.

(** A tool descriptor offered to the LLM; only passed through. *)
Record ChatCompletionToolParam := {
  tool_name : string;
  tool_description : string;
}.

(** The configuration dict; only ["use_redis"] decides behaviour here. *)
Record Config := {
  use_redis : bool;
}.

(** A context instance.  [__init__] assigns [_name] and [_config] on the
    instance; all the other attributes are looked up on the class. *)
Record WiseAgentContext := {
  _name : string;
  _config : Config;
}.

(** [__init__] (and [__setstate__]) set the instance's [_use_redis] exactly
    when the configuration asks for Redis: the class-level [_redis_db] is
    never assigned, so [self._redis_db is None] holds at that point. *)
Definition _use_redis (self : WiseAgentContext) : bool :=
  use_redis (_config self).

(** Chat ids are [Optional[str]]; a Python dict accepts [None] as a key. *)
Abbreviation chat_key := (option string) (only parsing).

(** A list object on the Python heap. *)
Abbreviation loc := nat (only parsing).

(** The class-level attributes of [WiseAgentContext].  They are mutable
    objects created once, when the class body runs.  The lists of agents of
    the phases are kept by reference into the heap, because
    [set_current_phase] copies one and
    [remove_required_agent_for_current_phase] mutates one in place: a chat's
    phases are a list of references, and its required agents are a
    reference.  The other lists are only ever changed through the context
    and are kept by value. *)
Record ContextClass := {
  _message_trace : list WiseAgentMessage;
  _participants : list string;
  _llm_chat_completion : gmap chat_key (list ChatCompletionMessageParam);
  _llm_required_tool_call : gmap chat_key (list string);
  _llm_available_tools_in_chat : gmap chat_key (list ChatCompletionToolParam);
  _agents_sequence : gmap chat_key (list string);
  _route_response_to : gmap chat_key string;
  _agent_phase_assignments : gmap chat_key (list loc);
  _current_phase : gmap chat_key Z;
  _required_agents_for_current_phase : gmap chat_key loc;
  _queries : gmap chat_key (list string);
  _collaboration_type : gmap chat_key WiseAgentCollaborationType;
}.

(** The keys of the Redis server: two lists and one hash per map; values
    are pickled, hence stored by value. *)
Record RedisDb := {
  r_message_trace : list WiseAgentMessage;
  r_participants : list string;
  r_llm_chat_completion : gmap string (list ChatCompletionMessageParam);
  r_llm_required_tool_call : gmap string (list string);
  r_llm_available_tools_in_chat : gmap string (list ChatCompletionToolParam);
  r_agents_sequence : gmap string (list string);
  r_route_response_to : gmap string string;
  r_agent_phase_assignments : gmap string (list (list string));
  r_current_phase : gmap string Z;
  r_required_agents_for_current_phase : gmap string (list string);
  r_queries : gmap string (list string);
  r_collaboration_type : gmap string WiseAgentCollaborationType;
  r_agents : gmap string string;
  r_contexts : gmap string WiseAgentContext;
}.

(** The class-level attributes of [WiseAgentRegistry].  The class body
    declares [agents_descriptions_dict], [contexts], [tools], [config] and
    [redis_db].  It declares no attribute [agents]: [agents] is [None] unless
    something outside the class assigns one.  [tools] is left out. *)
Record WiseAgentRegistry := {
  agents : option (gmap string string);
  agents_descriptions_dict : gmap string string;
  contexts : gmap string WiseAgentContext;
  config : Config;
}.

(** What the transport was asked to deliver. *)
Inductive queue := RequestQueue | ResponseQueue.

Record Sent := {
  sent_on : queue;
  sent_message : WiseAgentMessage;
  sent_to : string;
}.

(** The whole process state. *)
Record World := {
  ctx_class : ContextClass;
  heap : list (list string);
  redis : RedisDb;
  registry : WiseAgentRegistry;
  transport_log : list Sent;
}.

(** ** Access paths into the state *)

(** A gettable and updatable part of a state. *)
Record lens (S T : Type) := Lens {
  view : S -> T;
  over : (T -> T) -> S -> S;
}.
Arguments Lens {S T} _ _.
Arguments view {S T} _ _.
Arguments over {S T} _ _ _.

Definition put {S T} (l : lens S T) (v : T) : S -> S := over l (fun _ => v).

Definition lens_compose {S T U} (l1 : lens S T) (l2 : lens T U) : lens S U :=
  Lens (fun s => view l2 (view l1 s))
       (fun f s => over l1 (over l2 f) s).

Definition world_ctx_class : lens World ContextClass :=
  Lens ctx_class (fun f w =>
    {| ctx_class := f (ctx_class w); heap := heap w; redis := redis w;
       registry := registry w; transport_log := transport_log w |}).

Definition world_heap : lens World (list (list string)) :=
  Lens heap (fun f w =>
    {| ctx_class := ctx_class w; heap := f (heap w); redis := redis w;
       registry := registry w; transport_log := transport_log w |}).

Definition world_redis : lens World RedisDb :=
  Lens redis (fun f w =>
    {| ctx_class := ctx_class w; heap := heap w; redis := f (redis w);
       registry := registry w; transport_log := transport_log w |}).

Definition world_registry : lens World WiseAgentRegistry :=
  Lens registry (fun f w =>
    {| ctx_class := ctx_class w; heap := heap w; redis := redis w;
       registry := f (registry w); transport_log := transport_log w |}).

Definition world_transport_log : lens World (list Sent) :=
  Lens transport_log (fun f w =>
    {| ctx_class := ctx_class w; heap := heap w; redis := redis w;
       registry := registry w; transport_log := f (transport_log w) |}).

(** The class-level attributes, as reached through [self.]. *)
Definition cls_message_trace := lens_compose world_ctx_class
    (Lens _message_trace (fun f c =>
      Build_ContextClass (f (_message_trace c)) (_participants c) (_llm_chat_completion c)
         (_llm_required_tool_call c) (_llm_available_tools_in_chat c)
         (_agents_sequence c) (_route_response_to c)
         (_agent_phase_assignments c) (_current_phase c)
         (_required_agents_for_current_phase c) (_queries c)
         (_collaboration_type c))).

Definition cls_participants := lens_compose world_ctx_class
    (Lens _participants (fun f c =>
      Build_ContextClass (_message_trace c) (f (_participants c)) (_llm_chat_completion c)
         (_llm_required_tool_call c) (_llm_available_tools_in_chat c)
         (_agents_sequence c) (_route_response_to c)
         (_agent_phase_assignments c) (_current_phase c)
         (_required_agents_for_current_phase c) (_queries c)
         (_collaboration_type c))).

Definition cls_llm_chat_completion := lens_compose world_ctx_class
    (Lens _llm_chat_completion (fun f c =>
      Build_ContextClass (_message_trace c) (_participants c) (f (_llm_chat_completion c))
         (_llm_required_tool_call c) (_llm_available_tools_in_chat c)
         (_agents_sequence c) (_route_response_to c)
         (_agent_phase_assignments c) (_current_phase c)
         (_required_agents_for_current_phase c) (_queries c)
         (_collaboration_type c))).

Definition cls_llm_required_tool_call := lens_compose world_ctx_class
    (Lens _llm_required_tool_call (fun f c =>
      Build_ContextClass (_message_trace c) (_participants c) (_llm_chat_completion c)
         (f (_llm_required_tool_call c)) (_llm_available_tools_in_chat c)
         (_agents_sequence c) (_route_response_to c)
         (_agent_phase_assignments c) (_current_phase c)
         (_required_agents_for_current_phase c) (_queries c)
         (_collaboration_type c))).

Definition cls_llm_available_tools_in_chat := lens_compose world_ctx_class
    (Lens _llm_available_tools_in_chat (fun f c =>
      Build_ContextClass (_message_trace c) (_participants c) (_llm_chat_completion c)
         (_llm_required_tool_call c) (f (_llm_available_tools_in_chat c))
         (_agents_sequence c) (_route_response_to c)
         (_agent_phase_assignments c) (_current_phase c)
         (_required_agents_for_current_phase c) (_queries c)
         (_collaboration_type c))).

Definition cls_agents_sequence := lens_compose world_ctx_class
    (Lens _agents_sequence (fun f c =>
      Build_ContextClass (_message_trace c) (_participants c) (_llm_chat_completion c)
         (_llm_required_tool_call c) (_llm_available_tools_in_chat c)
         (f (_agents_sequence c)) (_route_response_to c)
         (_agent_phase_assignments c) (_current_phase c)
         (_required_agents_for_current_phase c) (_queries c)
         (_collaboration_type c))).

Definition cls_route_response_to := lens_compose world_ctx_class
    (Lens _route_response_to (fun f c =>
      Build_ContextClass (_message_trace c) (_participants c) (_llm_chat_completion c)
         (_llm_required_tool_call c) (_llm_available_tools_in_chat c)
         (_agents_sequence c) (f (_route_response_to c))
         (_agent_phase_assignments c) (_current_phase c)
         (_required_agents_for_current_phase c) (_queries c)
         (_collaboration_type c))).

Definition cls_agent_phase_assignments := lens_compose world_ctx_class
    (Lens _agent_phase_assignments (fun f c =>
      Build_ContextClass (_message_trace c) (_participants c) (_llm_chat_completion c)
         (_llm_required_tool_call c) (_llm_available_tools_in_chat c)
         (_agents_sequence c) (_route_response_to c)
         (f (_agent_phase_assignments c)) (_current_phase c)
         (_required_agents_for_current_phase c) (_queries c)
         (_collaboration_type c))).

Definition cls_current_phase := lens_compose world_ctx_class
    (Lens _current_phase (fun f c =>
      Build_ContextClass (_message_trace c) (_participants c) (_llm_chat_completion c)
         (_llm_required_tool_call c) (_llm_available_tools_in_chat c)
         (_agents_sequence c) (_route_response_to c)
         (_agent_phase_assignments c) (f (_current_phase c))
         (_required_agents_for_current_phase c) (_queries c)
         (_collaboration_type c))).

Definition cls_required_agents_for_current_phase := lens_compose world_ctx_class
    (Lens _required_agents_for_current_phase (fun f c =>
      Build_ContextClass (_message_trace c) (_participants c) (_llm_chat_completion c)
         (_llm_required_tool_call c) (_llm_available_tools_in_chat c)
         (_agents_sequence c) (_route_response_to c)
         (_agent_phase_assignments c) (_current_phase c)
         (f (_required_agents_for_current_phase c)) (_queries c)
         (_collaboration_type c))).

Definition cls_queries := lens_compose world_ctx_class
    (Lens _queries (fun f c =>
      Build_ContextClass (_message_trace c) (_participants c) (_llm_chat_completion c)
         (_llm_required_tool_call c) (_llm_available_tools_in_chat c)
         (_agents_sequence c) (_route_response_to c)
         (_agent_phase_assignments c) (_current_phase c)
         (_required_agents_for_current_phase c) (f (_queries c))
         (_collaboration_type c))).

Definition cls_collaboration_type := lens_compose world_ctx_class
    (Lens _collaboration_type (fun f c =>
      Build_ContextClass (_message_trace c) (_participants c) (_llm_chat_completion c)
         (_llm_required_tool_call c) (_llm_available_tools_in_chat c)
         (_agents_sequence c) (_route_response_to c)
         (_agent_phase_assignments c) (_current_phase c)
         (_required_agents_for_current_phase c) (_queries c)
         (f (_collaboration_type c)))).

(** The keys of the Redis server. *)
Definition db_message_trace := lens_compose world_redis
  (Lens r_message_trace (fun f d =>
    Build_RedisDb (f (r_message_trace d)) (r_participants d)
      (r_llm_chat_completion d) (r_llm_required_tool_call d)
      (r_llm_available_tools_in_chat d) (r_agents_sequence d)
      (r_route_response_to d) (r_agent_phase_assignments d)
      (r_current_phase d) (r_required_agents_for_current_phase d)
      (r_queries d) (r_collaboration_type d) (r_agents d) (r_contexts d))).

Definition db_participants := lens_compose world_redis
  (Lens r_participants (fun f d =>
    Build_RedisDb (r_message_trace d) (f (r_participants d))
      (r_llm_chat_completion d) (r_llm_required_tool_call d)
      (r_llm_available_tools_in_chat d) (r_agents_sequence d)
      (r_route_response_to d) (r_agent_phase_assignments d)
      (r_current_phase d) (r_required_agents_for_current_phase d)
      (r_queries d) (r_collaboration_type d) (r_agents d) (r_contexts d))).

Definition db_llm_chat_completion := lens_compose world_redis
  (Lens r_llm_chat_completion (fun f d =>
    Build_RedisDb (r_message_trace d) (r_participants d)
      (f (r_llm_chat_completion d)) (r_llm_required_tool_call d)
      (r_llm_available_tools_in_chat d) (r_agents_sequence d)
      (r_route_response_to d) (r_agent_phase_assignments d)
      (r_current_phase d) (r_required_agents_for_current_phase d)
      (r_queries d) (r_collaboration_type d) (r_agents d) (r_contexts d))).

Definition db_llm_required_tool_call := lens_compose world_redis
  (Lens r_llm_required_tool_call (fun f d =>
    Build_RedisDb (r_message_trace d) (r_participants d)
      (r_llm_chat_completion d) (f (r_llm_required_tool_call d))
      (r_llm_available_tools_in_chat d) (r_agents_sequence d)
      (r_route_response_to d) (r_agent_phase_assignments d)
      (r_current_phase d) (r_required_agents_for_current_phase d)
      (r_queries d) (r_collaboration_type d) (r_agents d) (r_contexts d))).

Definition db_llm_available_tools_in_chat := lens_compose world_redis
  (Lens r_llm_available_tools_in_chat (fun f d =>
    Build_RedisDb (r_message_trace d) (r_participants d)
      (r_llm_chat_completion d) (r_llm_required_tool_call d)
      (f (r_llm_available_tools_in_chat d)) (r_agents_sequence d)
      (r_route_response_to d) (r_agent_phase_assignments d)
      (r_current_phase d) (r_required_agents_for_current_phase d)
      (r_queries d) (r_collaboration_type d) (r_agents d) (r_contexts d))).

Definition db_agents_sequence := lens_compose world_redis
  (Lens r_agents_sequence (fun f d =>
    Build_RedisDb (r_message_trace d) (r_participants d)
      (r_llm_chat_completion d) (r_llm_required_tool_call d)
      (r_llm_available_tools_in_chat d) (f (r_agents_sequence d))
      (r_route_response_to d) (r_agent_phase_assignments d)
      (r_current_phase d) (r_required_agents_for_current_phase d)
      (r_queries d) (r_collaboration_type d) (r_agents d) (r_contexts d))).

Definition db_route_response_to := lens_compose world_redis
  (Lens r_route_response_to (fun f d =>
    Build_RedisDb (r_message_trace d) (r_participants d)
      (r_llm_chat_completion d) (r_llm_required_tool_call d)
      (r_llm_available_tools_in_chat d) (r_agents_sequence d)
      (f (r_route_response_to d)) (r_agent_phase_assignments d)
      (r_current_phase d) (r_required_agents_for_current_phase d)
      (r_queries d) (r_collaboration_type d) (r_agents d) (r_contexts d))).

Definition db_agent_phase_assignments := lens_compose world_redis
  (Lens r_agent_phase_assignments (fun f d =>
    Build_RedisDb (r_message_trace d) (r_participants d)
      (r_llm_chat_completion d) (r_llm_required_tool_call d)
      (r_llm_available_tools_in_chat d) (r_agents_sequence d)
      (r_route_response_to d) (f (r_agent_phase_assignments d))
      (r_current_phase d) (r_required_agents_for_current_phase d)
      (r_queries d) (r_collaboration_type d) (r_agents d) (r_contexts d))).

Definition db_current_phase := lens_compose world_redis
  (Lens r_current_phase (fun f d =>
    Build_RedisDb (r_message_trace d) (r_participants d)
      (r_llm_chat_completion d) (r_llm_required_tool_call d)
      (r_llm_available_tools_in_chat d) (r_agents_sequence d)
      (r_route_response_to d) (r_agent_phase_assignments d)
      (f (r_current_phase d)) (r_required_agents_for_current_phase d)
      (r_queries d) (r_collaboration_type d) (r_agents d) (r_contexts d))).

Definition db_required_agents_for_current_phase := lens_compose world_redis
  (Lens r_required_agents_for_current_phase (fun f d =>
    Build_RedisDb (r_message_trace d) (r_participants d)
      (r_llm_chat_completion d) (r_llm_required_tool_call d)
      (r_llm_available_tools_in_chat d) (r_agents_sequence d)
      (r_route_response_to d) (r_agent_phase_assignments d)
      (r_current_phase d) (f (r_required_agents_for_current_phase d))
      (r_queries d) (r_collaboration_type d) (r_agents d) (r_contexts d))).

Definition db_queries := lens_compose world_redis
  (Lens r_queries (fun f d =>
    Build_RedisDb (r_message_trace d) (r_participants d)
      (r_llm_chat_completion d) (r_llm_required_tool_call d)
      (r_llm_available_tools_in_chat d) (r_agents_sequence d)
      (r_route_response_to d) (r_agent_phase_assignments d)
      (r_current_phase d) (r_required_agents_for_current_phase d)
      (f (r_queries d)) (r_collaboration_type d) (r_agents d) (r_contexts d))).

Definition db_collaboration_type := lens_compose world_redis
  (Lens r_collaboration_type (fun f d =>
    Build_RedisDb (r_message_trace d) (r_participants d)
      (r_llm_chat_completion d) (r_llm_required_tool_call d)
      (r_llm_available_tools_in_chat d) (r_agents_sequence d)
      (r_route_response_to d) (r_agent_phase_assignments d)
      (r_current_phase d) (r_required_agents_for_current_phase d)
      (r_queries d) (f (r_collaboration_type d)) (r_agents d) (r_contexts d))).

Definition db_agents := lens_compose world_redis
  (Lens r_agents (fun f d =>
    Build_RedisDb (r_message_trace d) (r_participants d)
      (r_llm_chat_completion d) (r_llm_required_tool_call d)
      (r_llm_available_tools_in_chat d) (r_agents_sequence d)
      (r_route_response_to d) (r_agent_phase_assignments d)
      (r_current_phase d) (r_required_agents_for_current_phase d)
      (r_queries d) (r_collaboration_type d) (f (r_agents d)) (r_contexts d))).

Definition db_contexts := lens_compose world_redis
  (Lens r_contexts (fun f d =>
    Build_RedisDb (r_message_trace d) (r_participants d)
      (r_llm_chat_completion d) (r_llm_required_tool_call d)
      (r_llm_available_tools_in_chat d) (r_agents_sequence d)
      (r_route_response_to d) (r_agent_phase_assignments d)
      (r_current_phase d) (r_required_agents_for_current_phase d)
      (r_queries d) (r_collaboration_type d) (r_agents d) (f (r_contexts d)))).

(** The class-level attributes of the registry. *)
Definition reg_agents := lens_compose world_registry
  (Lens agents (fun f r =>
    Build_WiseAgentRegistry (f (agents r)) (agents_descriptions_dict r)
      (contexts r) (config r))).

Definition reg_agents_descriptions_dict := lens_compose world_registry
  (Lens agents_descriptions_dict (fun f r =>
    Build_WiseAgentRegistry (agents r) (f (agents_descriptions_dict r))
      (contexts r) (config r))).

Definition reg_contexts := lens_compose world_registry
  (Lens contexts (fun f r =>
    Build_WiseAgentRegistry (agents r) (agents_descriptions_dict r)
      (f (contexts r)) (config r))).

Definition reg_config := lens_compose world_registry
  (Lens config (fun f r =>
    Build_WiseAgentRegistry (agents r) (agents_descriptions_dict r)
      (contexts r) (f (config r)))).

(** ** Computations: state that survives an exception *)

(** A call either returns a value or raises; the state changes made before
    the exception stay. *)
Inductive outcome (A : Type) :=
  | Val (a : A)
  | Raise (e : exn).
Arguments Val {A} _.
Arguments Raise {A} _.

Definition M (A : Type) : Type := World -> outcome A * World.

Definition ret {A} (a : A) : M A := fun w => (Val a, w).

Definition raise {A} (e : exn) : M A := fun w => (Raise e, w).

Definition bind {A B} (m : M A) (k : A -> M B) : M B :=
  fun w =>
    match m w with
    | (Val a, w') => k a w'
    | (Raise e, w') => (Raise e, w')
    end.

Declare Scope ctx_scope.
Delimit Scope ctx_scope with ctx.
Notation "'let*' x ':=' m 'in' k" := (bind m (fun x => k))
  (at level 10, x name, m at level 100, k at level 200) : ctx_scope.
Notation "m ;; k" := (bind m (fun _ => k))
  (at level 100, k at level 200, right associativity) : ctx_scope.
Open Scope ctx_scope.

Definition read {T} (l : lens World T) : M T :=
  fun w => (Val (view l w), w).

Definition update {T} (l : lens World T) (f : T -> T) : M unit :=
  fun w => (Val tt, over l f w).

(** [None] where a value is needed raises [e]. *)
Definition or_raise {A} (e : exn) (o : option A) : M A :=
  match o with
  | Some a => ret a
  | None => raise e
  end.

(** Running a computation: its result and the state it leaves. *)
Definition result_of {A} (m : M A) (w : World) : outcome A := fst (m w).
Definition state_after {A} (m : M A) (w : World) : World := snd (m w).

(** *** A Python dict held in an attribute *)
Section Dict.
Context {K V : Type} `{Countable K}.
Variable d : lens World (gmap K V).

(** [k in d] *)
Definition dict_contains (k : K) : M bool :=
  let* m := read d in
  ret (match m !! k with Some _ => true | None => false end).

(** [d.get(k)] *)
Definition dict_get (k : K) : M (option V) :=
  let* m := read d in ret (m !! k).

(** [d[k]] *)
Definition dict_getitem (k : K) : M V :=
  let* m := read d in or_raise KeyError (m !! k).

(** [d[k] = v] *)
Definition dict_setitem (k : K) (v : V) : M unit :=
  update d (insert k v).

(** [d.pop(k)] *)
Definition dict_pop (k : K) : M V :=
  let* v := dict_getitem k in
  update d (delete k);;
  ret v.
End Dict.

(** *** List objects on the heap *)

(** A new list object. *)
Definition new_list (items : list string) : M loc :=
  fun w => (Val (length (heap w)), over world_heap (fun h => h ++ [items]) w).

(** The items of a list object. *)
Definition list_items (l : loc) : M (list string) :=
  let* h := read world_heap in ret (default [] (h !! l)).

(** [l.remove(x)], in place. *)
Definition list_remove (l : loc) (x : string) : M unit :=
  let* items := list_items l in
  let* items' := or_raise ValueError (py_remove x items) in
  update world_heap (fun h => <[l := items']> h).

(** [copy.deepcopy(l)] of a list of strings: a new object, equal items. *)
Definition deepcopy (l : loc) : M loc :=
  let* items := list_items l in new_list items.

(** A list of list objects built by a caller, as in [[["a", "b"], ["c"]]]. *)
Fixpoint new_lists (ls : list (list string)) : M (list loc) :=
  match ls with
  | [] => ret []
  | items :: ls' =>
      let* l := new_list items in
      let* rest := new_lists ls' in
      ret (l :: rest)
  end.

(** The items behind a list of references. *)
Fixpoint lists_items (ls : list loc) : M (list (list string)) :=
  match ls with
  | [] => ret []
  | l :: ls' =>
      let* items := list_items l in
      let* rest := lists_items ls' in
      ret (items :: rest)
  end.

(** *** Redis commands *)

(** A hash field name; redis-py cannot encode [None]. *)
Definition field (key : chat_key) : M string := or_raise DataError key.

Section Hash.
Context {V : Type}.
Variable h : lens World (gmap string V).

Definition hexists (key : chat_key) : M bool :=
  let* k := field key in
  let* m := read h in
  ret (match m !! k with Some _ => true | None => false end).

Definition hget (key : chat_key) : M (option V) :=
  let* k := field key in
  let* m := read h in ret (m !! k).

Definition hset (key : chat_key) (v : V) : M unit :=
  let* k := field key in update h (insert k v).

Definition hdel (key : chat_key) : M unit :=
  let* k := field key in update h (delete k).

Definition hgetall : M (gmap string V) := read h.
End Hash.

(** [exists] on a list key: a Redis list exists when it is not empty. *)
Definition exists_list {A} (l : lens World (list A)) : M bool :=
  let* xs := read l in
  ret (match xs with [] => false | _ :: _ => true end).

Definition rpush {A} (l : lens World (list A)) (x : A) : M unit :=
  update l (fun xs => xs ++ [x]).

(** [lrange(key, 0, -1)] on a list of names: the whole list, as [bytes]. *)
Definition lrange (l : lens World (list string)) : M (list pystr) :=
  let* xs := read l in ret (PyBytes <$> xs).

(** ** WiseAgentRegistry: configuration and context registration *)

(** [get_config].  Finding and loading [registry_config.yaml] is outside
    this model: [config] is the configuration once loaded. *)
Definition get_config : M Config := read reg_config.

(** The property [name] of a context. *)
Definition name (self : WiseAgentContext) : string := _name self.

Definition register_context (context : WiseAgentContext) : M unit :=
  let* cfg := get_config in
  if use_redis cfg
  then hset db_contexts (Some (name context)) context
  else dict_setitem reg_contexts (name context) context.

(** ** WiseAgentContext *)

(** The default value of the parameter [config]. *)
Definition default_config : Config := {| use_redis := false |}.

Definition __init__ (name : string) (config : Config) : M WiseAgentContext :=
  let self := {| _name := name; _config := config |} in
  register_context self;;
  ret self.

(** The property [message_trace]. *)
Definition message_trace (self : WiseAgentContext) : M (list WiseAgentMessage) :=
  if _use_redis self then read db_message_trace
  else read cls_message_trace.

(** The Redis branch pushes the printed form of the message.  The
    in-process branch appends the message object itself; the entry is kept
    here as the value the message has at the time of the call. *)
Definition trace (self : WiseAgentContext) (msg : WiseAgentMessage) : M unit :=
  if _use_redis self then rpush db_message_trace msg
  else update cls_message_trace (fun l => l ++ [msg]).

(** The property [participants]: a list of [bytes] from Redis, the list of
    [str] itself otherwise. *)
Definition participants (self : WiseAgentContext) : M (list pystr) :=
  if _use_redis self then lrange db_participants
  else let* l := read cls_participants in ret (PyStr <$> l).

(** The property [llm_chat_completion]: the whole map; from Redis its keys
    are decoded to [str]. *)
Definition llm_chat_completion (self : WiseAgentContext)
  : M (gmap chat_key (list ChatCompletionMessageParam)) :=
  if _use_redis self then
    let* redis_dict := hgetall db_llm_chat_completion in
    ret (kmap Some redis_dict)
  else read cls_llm_chat_completion.

Definition add_participant (self : WiseAgentContext) (agent_name : string) : M unit :=
  if _use_redis self then
    let* present := exists_list db_participants in
    if negb present then rpush db_participants agent_name
    else
      let* stored := lrange db_participants in
      if negb (py_in (PyStr agent_name) stored)
      then rpush db_participants agent_name
      else ret tt
  else
    let* stored := participants self in
    if negb (py_in (PyStr agent_name) stored)
    then update cls_participants (fun l => l ++ [agent_name])
    else ret tt.

Definition append_chat_completion (self : WiseAgentContext) (chat_uuid : chat_key)
    (messages : ChatCompletionMessageParam) : M unit :=
  if _use_redis self then
    let* present := hexists db_llm_chat_completion chat_uuid in
    if negb present then hset db_llm_chat_completion chat_uuid [messages]
    else
      let* stored := hget db_llm_chat_completion chat_uuid in
      let* stored_messages := or_raise TypeError stored in
      hset db_llm_chat_completion chat_uuid (stored_messages ++ [messages])
  else
    let* present := dict_contains cls_llm_chat_completion chat_uuid in
    (if negb present then dict_setitem cls_llm_chat_completion chat_uuid []
     else ret tt);;
    let* l := dict_getitem cls_llm_chat_completion chat_uuid in
    dict_setitem cls_llm_chat_completion chat_uuid (l ++ [messages]).

(** On the in-process branch the property [llm_required_tool_call] is the
    class-level map itself. *)
Definition append_required_tool_call (self : WiseAgentContext)
    (chat_uuid : chat_key) (tool_name : string) : M unit :=
  if _use_redis self then
    let* present := hexists db_llm_required_tool_call chat_uuid in
    if negb present then hset db_llm_required_tool_call chat_uuid [tool_name]
    else
      let* stored := hget db_llm_required_tool_call chat_uuid in
      let* stored_tool_names := or_raise TypeError stored in
      hset db_llm_required_tool_call chat_uuid (stored_tool_names ++ [tool_name])
  else
    let* present := dict_contains cls_llm_required_tool_call chat_uuid in
    (if negb present then dict_setitem cls_llm_required_tool_call chat_uuid []
     else ret tt);;
    let* l := dict_getitem cls_llm_required_tool_call chat_uuid in
    dict_setitem cls_llm_required_tool_call chat_uuid (l ++ [tool_name]).

(** The statements after the Redis loop are not under an [else]: when the
    loop ends with [break], they run as well. *)
Definition remove_required_tool_call (self : WiseAgentContext)
    (chat_uuid : chat_key) (tool_name : string) : M unit :=
  let in_process :=
    let* present := dict_contains cls_llm_required_tool_call chat_uuid in
    if present then
      let* l := dict_getitem cls_llm_required_tool_call chat_uuid in
      let* l' := or_raise ValueError (py_remove tool_name l) in
      dict_setitem cls_llm_required_tool_call chat_uuid l';;
      if Nat.eqb (length l') 0
      then dict_pop cls_llm_required_tool_call chat_uuid;; ret tt
      else ret tt
    else ret tt in
  if _use_redis self then
    let* present := hexists db_llm_required_tool_call chat_uuid in
    if negb present then ret tt
    else
      let* redis_stored_tool_names := hget db_llm_required_tool_call chat_uuid in
      let* stored_tool_names :=
        match redis_stored_tool_names with
        | None => ret []
        | Some names => or_raise ValueError (py_remove tool_name names)
        end in
      (if Nat.eqb (length stored_tool_names) 0
       then hdel db_llm_required_tool_call chat_uuid
       else hset db_llm_required_tool_call chat_uuid stored_tool_names);;
      in_process
  else in_process.

Definition get_required_tool_calls (self : WiseAgentContext)
    (chat_uuid : chat_key) : M (list string) :=
  if _use_redis self then
    let* llm_req_tools := hget db_llm_required_tool_call chat_uuid in
    ret (default [] llm_req_tools)
  else
    let* present := dict_contains cls_llm_required_tool_call chat_uuid in
    if present then dict_getitem cls_llm_required_tool_call chat_uuid
    else ret [].

Definition append_available_tool_in_chat (self : WiseAgentContext)
    (chat_uuid : chat_key) (tools : ChatCompletionToolParam) : M unit :=
  if _use_redis self then
    let* present := hexists db_llm_available_tools_in_chat chat_uuid in
    if negb present then hset db_llm_available_tools_in_chat chat_uuid [tools]
    else
      let* stored := hget db_llm_available_tools_in_chat chat_uuid in
      let* stored_tools := or_raise TypeError stored in
      hset db_llm_available_tools_in_chat chat_uuid (stored_tools ++ [tools])
  else
    let* present := dict_contains cls_llm_available_tools_in_chat chat_uuid in
    (if negb present
     then dict_setitem cls_llm_available_tools_in_chat chat_uuid []
     else ret tt);;
    let* l := dict_getitem cls_llm_available_tools_in_chat chat_uuid in
    dict_setitem cls_llm_available_tools_in_chat chat_uuid (l ++ [tools]).

Definition get_available_tools_in_chat (self : WiseAgentContext)
    (chat_uuid : chat_key) : M (list ChatCompletionToolParam) :=
  if _use_redis self then
    let* llm_av_tools := hget db_llm_available_tools_in_chat chat_uuid in
    ret (default [] llm_av_tools)
  else
    let* present := dict_contains cls_llm_available_tools_in_chat chat_uuid in
    if present then dict_getitem cls_llm_available_tools_in_chat chat_uuid
    else ret [].

Definition get_agents_sequence (self : WiseAgentContext)
    (chat_uuid : chat_key) : M (list string) :=
  if _use_redis self then
    let* agent_sequence := hget db_agents_sequence chat_uuid in
    ret (default [] agent_sequence)
  else
    let* present := dict_contains cls_agents_sequence chat_uuid in
    if present then dict_getitem cls_agents_sequence chat_uuid
    else ret [].

Definition set_agents_sequence (self : WiseAgentContext)
    (chat_uuid : chat_key) (agents_sequence : list string) : M unit :=
  if _use_redis self then hset db_agents_sequence chat_uuid agents_sequence
  else dict_setitem cls_agents_sequence chat_uuid agents_sequence.

Definition get_route_response_to (self : WiseAgentContext)
    (chat_uuid : chat_key) : M (option string) :=
  if _use_redis self then hget db_route_response_to chat_uuid
  else
    let* present := dict_contains cls_route_response_to chat_uuid in
    if present then
      let* agent := dict_getitem cls_route_response_to chat_uuid in
      ret (Some agent)
    else ret None.

Definition set_route_response_to (self : WiseAgentContext)
    (chat_uuid : chat_key) (agent : string) : M unit :=
  if _use_redis self then hset db_route_response_to chat_uuid agent
  else dict_setitem cls_route_response_to chat_uuid agent.

Definition get_next_agent_in_sequence (self : WiseAgentContext)
    (chat_uuid : chat_key) (current_agent : string) : M (option string) :=
  let* agents_sequence := get_agents_sequence self chat_uuid in
  if py_in current_agent agents_sequence then
    let* current_agent_index :=
      or_raise ValueError (py_index current_agent agents_sequence) in
    let next_agent_index := current_agent_index + 1 in
    if Nat.ltb next_agent_index (length agents_sequence) then
      let* next_agent :=
        or_raise IndexError (agents_sequence !! next_agent_index) in
      ret (Some next_agent)
    else ret None
  else ret None.

(** The phases are returned by value here: their items at the time of the
    call.  [self._agent_phase_assignments.get(...)] is applied to a key that
    is present. *)
Definition get_agent_phase_assignments (self : WiseAgentContext)
    (chat_uuid : chat_key) : M (list (list string)) :=
  if _use_redis self then
    let* agent_phase := hget db_agent_phase_assignments chat_uuid in
    ret (default [] agent_phase)
  else
    let* present := dict_contains cls_agent_phase_assignments chat_uuid in
    if present then
      let* phases := dict_getitem cls_agent_phase_assignments chat_uuid in
      lists_items phases
    else ret [].

(** [agent_phase_assignments] is the caller's list of list objects.  The
    in-process branch stores the references; the Redis branch pickles the
    items. *)
Definition set_agent_phase_assignments (self : WiseAgentContext)
    (chat_uuid : chat_key) (agent_phase_assignments : list loc) : M unit :=
  if _use_redis self then
    let* pickled := lists_items agent_phase_assignments in
    hset db_agent_phase_assignments chat_uuid pickled
  else
    dict_setitem cls_agent_phase_assignments chat_uuid agent_phase_assignments.

Definition get_current_phase (self : WiseAgentContext)
    (chat_uuid : chat_key) : M (option Z) :=
  if _use_redis self then hget db_current_phase chat_uuid
  else dict_get cls_current_phase chat_uuid.

(** In the Redis branch both [hset] are queued on one pipeline, and the
    phase is indexed while the second is being built: an exception there
    leaves the server untouched.  In the in-process branch the current phase
    is assigned before the phase is looked up. *)
Definition set_current_phase (self : WiseAgentContext)
    (chat_uuid : chat_key) (phase : Z) : M unit :=
  if _use_redis self then
    field chat_uuid;;
    let* phases := get_agent_phase_assignments self chat_uuid in
    let* agents := or_raise IndexError (py_getitem phases phase) in
    hset db_current_phase chat_uuid phase;;
    hset db_required_agents_for_current_phase chat_uuid agents
  else
    dict_setitem cls_current_phase chat_uuid phase;;
    let* phases := dict_getitem cls_agent_phase_assignments chat_uuid in
    let* agents := or_raise IndexError (py_getitem phases phase) in
    let* copied := deepcopy agents in
    dict_setitem cls_required_agents_for_current_phase chat_uuid copied.

(** [current_phase + 1] raises [TypeError] when no phase was ever set. *)
Definition get_agents_for_next_phase (self : WiseAgentContext)
    (chat_uuid : chat_key) : M (option (list string)) :=
  let* current_phase := get_current_phase self chat_uuid in
  let* current_phase := or_raise TypeError current_phase in
  let next_phase := (current_phase + 1)%Z in
  let* phases := get_agent_phase_assignments self chat_uuid in
  if (next_phase <? Z.of_nat (length phases))%Z then
    set_current_phase self chat_uuid next_phase;;
    let* phases := get_agent_phase_assignments self chat_uuid in
    let* agents := or_raise IndexError (py_getitem phases next_phase) in
    ret (Some agents)
  else ret None.

Definition get_required_agents_for_current_phase (self : WiseAgentContext)
    (chat_uuid : chat_key) : M (list string) :=
  if _use_redis self then
    let* req_agent := hget db_required_agents_for_current_phase chat_uuid in
    ret (default [] req_agent)
  else
    let* present :=
      dict_contains cls_required_agents_for_current_phase chat_uuid in
    if present then
      let* l := dict_getitem cls_required_agents_for_current_phase chat_uuid in
      list_items l
    else ret [].

Definition remove_required_agent_for_current_phase (self : WiseAgentContext)
    (chat_uuid : chat_key) (agent_name : string) : M unit :=
  if _use_redis self then
    let* present := hexists db_required_agents_for_current_phase chat_uuid in
    if negb present then ret tt
    else
      let* redis_stored_agents :=
        hget db_required_agents_for_current_phase chat_uuid in
      let* stored_agents := or_raise TypeError redis_stored_agents in
      let* stored_agents :=
        or_raise ValueError (py_remove agent_name stored_agents) in
      if Nat.eqb (length stored_agents) 0
      then hdel db_required_agents_for_current_phase chat_uuid
      else hset db_required_agents_for_current_phase chat_uuid stored_agents
  else
    let* present :=
      dict_contains cls_required_agents_for_current_phase chat_uuid in
    if present then
      let* l := dict_getitem cls_required_agents_for_current_phase chat_uuid in
      list_remove l agent_name
    else ret tt.

(** In the in-process branch a present key with an empty list falls off the
    end of the function, which returns [None]. *)
Definition get_current_query (self : WiseAgentContext)
    (chat_uuid : chat_key) : M (option string) :=
  if _use_redis self then
    let* queries := hget db_queries chat_uuid in
    match queries with
    | Some return_list =>
        let* q := or_raise IndexError (py_getitem return_list (-1)) in
        ret (Some q)
    | None => ret None
    end
  else
    let* present := dict_contains cls_queries chat_uuid in
    if present then
      let* l := dict_getitem cls_queries chat_uuid in
      match l with
      | [] => ret None
      | _ :: _ =>
          let* q := or_raise IndexError (py_getitem l (-1)) in
          ret (Some q)
      end
    else ret None.

Definition add_query (self : WiseAgentContext)
    (chat_uuid : chat_key) (query : string) : M unit :=
  if _use_redis self then
    let* present := hexists db_queries chat_uuid in
    if negb present then hset db_queries chat_uuid [query]
    else
      let* stored := hget db_queries chat_uuid in
      let* stored_queries := or_raise TypeError stored in
      hset db_queries chat_uuid (stored_queries ++ [query])
  else
    let* present := dict_contains cls_queries chat_uuid in
    (if negb present then dict_setitem cls_queries chat_uuid [] else ret tt);;
    let* l := dict_getitem cls_queries chat_uuid in
    dict_setitem cls_queries chat_uuid (l ++ [query]).

Definition get_queries (self : WiseAgentContext)
    (chat_uuid : chat_key) : M (list string) :=
  if _use_redis self then
    let* query := hget db_queries chat_uuid in
    ret (default [] query)
  else
    let* present := dict_contains cls_queries chat_uuid in
    if present then dict_getitem cls_queries chat_uuid
    else ret [].

(** The property [collaboration_type]. *)
Definition collaboration_type (self : WiseAgentContext)
  : M (gmap chat_key WiseAgentCollaborationType) :=
  if _use_redis self then
    let* redis_dict := hgetall db_collaboration_type in
    ret (kmap Some redis_dict)
  else read cls_collaboration_type.

(** The result is optional because the Redis branch can fall off its end:
    its [else] belongs to [if chat_uuid is not None], so a chat id that is
    given but has no field returns Python's [None]. *)
Definition get_collaboration_type (self : WiseAgentContext)
    (chat_uuid : chat_key) : M (option WiseAgentCollaborationType) :=
  if _use_redis self then
    match chat_uuid with
    | Some _ =>
        let* collaboration_type := hget db_collaboration_type chat_uuid in
        match collaboration_type with
        | Some t => ret (Some t)
        | None => ret None
        end
    | None => ret (Some INDEPENDENT)
    end
  else
    let* present := dict_contains cls_collaboration_type chat_uuid in
    if present then
      let* t := dict_getitem cls_collaboration_type chat_uuid in
      ret (Some t)
    else ret (Some INDEPENDENT).

Definition set_collaboration_type (self : WiseAgentContext)
    (chat_uuid : chat_key) (collaboration_type : WiseAgentCollaborationType)
    : M unit :=
  if _use_redis self
  then hset db_collaboration_type chat_uuid collaboration_type
  else dict_setitem cls_collaboration_type chat_uuid collaboration_type.

(** ** WiseAgentRegistry *)

(** The in-process branch reads [cls.agents], an attribute the class does
    not have, and the assignment after the [if] is outside the [else]; the
    Redis branch returns before reaching it. *)
Definition register_agent (agent_name agent_description : string) : M unit :=
  let* cfg := get_config in
  if use_redis cfg then
    let* present := hexists db_agents (Some agent_name) in
    if present then raise NameError
    else hset db_agents (Some agent_name) agent_description
  else
    let* attr := read reg_agents in
    let* agents := or_raise AttributeError attr in
    (if match agents !! agent_name with Some _ => true | None => false end
     then raise NameError else ret tt);;
    let* attr := read reg_agents in
    let* agents := or_raise AttributeError attr in
    update reg_agents (fun _ => Some (<[agent_name := agent_description]> agents)).

Definition fetch_agents_descriptions_dict : M (gmap string string) :=
  let* cfg := get_config in
  if use_redis cfg then hgetall db_agents
  else read reg_agents_descriptions_dict.

Definition get_agent_description (agent_name : string) : M (option string) :=
  let* cfg := get_config in
  if use_redis cfg then hget db_agents (Some agent_name)
  else dict_get reg_agents_descriptions_dict agent_name.

(** With Redis the stored context is unpickled: an instance with the same
    name and configuration. *)
Definition get_or_create_context (context_name : string) : M WiseAgentContext :=
  let* cfg := get_config in
  let* context :=
    (if use_redis cfg then hget db_contexts (Some context_name)
     else dict_get reg_contexts context_name) in
  match context with
  | None =>
      let* config := read reg_config in
      __init__ context_name config
  | Some context => ret context
  end.

Definition does_context_exist (context_name : string) : M bool :=
  let* cfg := get_config in
  if use_redis cfg then hexists db_contexts (Some context_name)
  else
    let* context := dict_get reg_contexts context_name in
    ret (match context with None => false | Some _ => true end).

Definition unregister_agent (agent_name : string) : M unit :=
  let* cfg := get_config in
  if use_redis cfg then hdel db_agents (Some agent_name)
  else dict_pop reg_agents_descriptions_dict agent_name;; ret tt.

Definition remove_context (context_name : string) : M unit :=
  let* cfg := get_config in
  if use_redis cfg then hdel db_contexts (Some context_name)
  else dict_pop reg_contexts context_name;; ret tt.

(** ** WiseAgent *)

(** An agent: [wa_name] and [wa_description] are its [_name] and
    [_description]; [process_request] is the abstract method an agent kind
    overrides, free to read and change the state. *)
Record WiseAgent := {
  wa_name : string;
  wa_description : string;
  process_request :
    WiseAgentMessage -> option (list ChatCompletionMessageParam) ->
    M (option string);
}.

(** Modelled from the spec: the transport class is not among the sources.
    Sending is fire-and-forget; the model records what was handed over, on
    which queue and for whom. *)
Definition transport_send (on : queue) (msg : WiseAgentMessage)
    (dest_agent_name : string) : M unit :=
  update world_transport_log (fun l =>
    l ++ [{| sent_on := on; sent_message := msg;
             sent_to := dest_agent_name |}]).

(** [message.sender = self.name] *)
Definition stamp (msg : WiseAgentMessage) (agent : string) : WiseAgentMessage :=
  {| message := message msg; message_type := message_type msg;
     sender := agent; context_name := context_name msg;
     chat_id := chat_id msg |}.

Definition start_agent (self : WiseAgent) : M unit :=
  register_agent (wa_name self) (wa_description self).

Definition stop_agent (self : WiseAgent) : M unit :=
  unregister_agent (wa_name self).

Definition send_request (self : WiseAgent) (msg : WiseAgentMessage)
    (dest_agent_name : string) : M unit :=
  let msg := stamp msg (wa_name self) in
  let* context := get_or_create_context (context_name msg) in
  add_participant context (wa_name self);;
  transport_send RequestQueue msg dest_agent_name;;
  trace context msg.

Definition send_response (self : WiseAgent) (msg : WiseAgentMessage)
    (dest_agent_name : string) : M unit :=
  let msg := stamp msg (wa_name self) in
  let* context := get_or_create_context (context_name msg) in
  add_participant context (wa_name self);;
  transport_send ResponseQueue msg dest_agent_name;;
  trace context msg.

Definition is_phased_or_chat (t : option WiseAgentCollaborationType) : bool :=
  bool_decide (t = Some PHASED) || bool_decide (t = Some CHAT).

(** The result is optional: [dict.get] gives [None] for a chat id that has
    no history yet. *)
Definition get_conversation_history_if_needed (self : WiseAgent)
    (context : WiseAgentContext) (chat_id : option string)
    (collaboration_type : option WiseAgentCollaborationType)
    : M (option (list ChatCompletionMessageParam)) :=
  if py_truthy chat_id && is_phased_or_chat collaboration_type then
    let* history := llm_chat_completion context in
    ret (history !! chat_id)
  else ret (Some []).

(** [logging.debug] is given a string built with [+] from the route, which
    raises [TypeError] when no route is set. *)
Definition handle_response (self : WiseAgent) (response_str : option string)
    (request : WiseAgentMessage) (context : WiseAgentContext)
    (collaboration_type : option WiseAgentCollaborationType) : M bool :=
  (if py_truthy response_str then
     let response := default "" response_str in
     let reply (t : option WiseAgentMessageType) :=
       {| message := response; message_type := t; sender := wa_name self;
          context_name := name context; chat_id := request.(chat_id) |} in
     if is_phased_or_chat collaboration_type then
       append_chat_completion context request.(chat_id)
         {| role := "assistant"; content := response |};;
       send_response self (reply (Some ACK)) request.(sender)
     else if bool_decide (collaboration_type = Some SEQUENTIAL) then
       let* next_agent :=
         get_next_agent_in_sequence context request.(chat_id) (wa_name self) in
       match next_agent with
       | None =>
           let* route := get_route_response_to context request.(chat_id) in
           or_raise TypeError route;;
           let* route := get_route_response_to context request.(chat_id) in
           let* route := or_raise TypeError route in
           send_response self (reply None) route
       | Some next_agent => send_request self (reply None) next_agent
       end
     else send_response self (reply None) request.(sender)
   else ret tt);;
  ret true.

Definition handle_request (self : WiseAgent) (request : WiseAgentMessage) : M bool :=
  let* context := get_or_create_context request.(context_name) in
  let* collaboration_type := get_collaboration_type context request.(chat_id) in
  let* conversation_history :=
    get_conversation_history_if_needed self context request.(chat_id)
      collaboration_type in
  let* response_str := process_request self request conversation_history in
  handle_response self response_str request context collaboration_type.

(** ** Initial state *)

Definition empty_class : ContextClass :=
  Build_ContextClass [] [] ∅ ∅ ∅ ∅ ∅ ∅ ∅ ∅ ∅ ∅.

Definition empty_redis : RedisDb :=
  Build_RedisDb [] [] ∅ ∅ ∅ ∅ ∅ ∅ ∅ ∅ ∅ ∅ ∅ ∅.

(** The state when the classes have just been created, for a given
    registry configuration. *)
Definition initial_world (cfg : Config) : World :=
  {| ctx_class := empty_class; heap := []; redis := empty_redis;
     registry := {| agents := None; agents_descriptions_dict := ∅;
                    contexts := ∅; config := cfg |};
     transport_log := [] |}.

(** ** ValidatingYAMLObject *)

(** [key.startswith('_')] *)
Definition startswith_underscore (key : string) : bool :=
  String.prefix "_" key.

(** [_translate_dictionary].  [d] is given by its items, in order; the
    result is the dict [copy].  The assignment [copy[key] = value] is inside
    the [if]: an item whose key already starts with an underscore is not
    copied. *)
Fixpoint translate_items {V} (items : list (string * V)) (copy : gmap string V)
    : gmap string V :=
  match items with
  | [] => copy
  | (key, value) :: rest =>
      if negb (startswith_underscore key)
      then translate_items rest (<["_" +:+ key := value]> copy)
      else translate_items rest copy
  end.

Definition _translate_dictionary {V} (d : list (string * V)) : gmap string V :=
  translate_items d ∅.

(** ** StompWiseAgentTransport: the names of the queues *)

Record StompWiseAgentTransport := {
  _host : string;
  _port : Z;
  _agent_name : string;
}.

(** The properties [request_queue] and [response_queue]: the queues the
    transport of an agent subscribes to in [start]. *)
Definition request_queue (self : StompWiseAgentTransport) : string :=
  "/queue/request/" +:+ _agent_name self.

Definition response_queue (self : StompWiseAgentTransport) : string :=
  "/queue/response/" +:+ _agent_name self.

(** The destinations [send_request] and [send_response] publish to. *)
Definition request_destination (dest_agent_name : string) : string :=
  "/queue/request/" +:+ dest_agent_name.

Definition response_destination (dest_agent_name : string) : string :=
  "/queue/response/" +:+ dest_agent_name.

(** * Vocabulary of the properties *)

(** ** What a context holds *)

(** A Redis-backed context can only address a chat id that is a string. *)
Definition addressable (self : WiseAgentContext) (chat_uuid : chat_key) : Prop :=
  _use_redis self = true → is_Some chat_uuid.

(** A name as the property [participants] of a context returns it. *)
Definition as_read (self : WiseAgentContext) (agent_name : string) : pystr :=
  if _use_redis self then PyBytes agent_name else PyStr agent_name.

(** The items of a list object in a heap; an unallocated reference has none. *)
Definition items_in (h : list (list string)) (l : loc) : list string :=
  default [] (h !! l).

(** The pending tool calls the context holds for a chat id, if any. *)
Definition pending_tool_calls (self : WiseAgentContext) (chat_uuid : chat_key)
    (w : World) : option (list string) :=
  if _use_redis self
  then c ← chat_uuid; r_llm_required_tool_call (redis w) !! c
  else _llm_required_tool_call (ctx_class w) !! chat_uuid.

(** The chat id has no pending tool call: no key in the class-level map and,
    for a Redis-backed context, no field in the hash. *)
Definition no_pending_tool_call (self : WiseAgentContext) (chat_uuid : chat_key)
    (w : World) : Prop :=
  _llm_required_tool_call (ctx_class w) !! chat_uuid = None ∧
  (_use_redis self = true →
   ∃ c, chat_uuid = Some c ∧ r_llm_required_tool_call (redis w) !! c = None).

(** The agents still required for the current phase of a chat id, if the
    context holds a list for it. *)
Definition required_agents (self : WiseAgentContext) (chat_uuid : chat_key)
    (w : World) : option (list string) :=
  if _use_redis self
  then c ← chat_uuid; r_required_agents_for_current_phase (redis w) !! c
  else l ← _required_agents_for_current_phase (ctx_class w) !! chat_uuid;
       Some (items_in (heap w) l).

(** Apart from the heap, two states differ at most in the required agents
    of the Redis server. *)
Definition changes_only_required_agents (w1 w2 : World) : Prop :=
  ctx_class w2 = ctx_class w1 ∧ registry w2 = registry w1 ∧
  transport_log w2 = transport_log w1 ∧
  ∃ f, redis w2 = redis (over db_required_agents_for_current_phase f w1).

(** No class-level map has the chat id as a key. *)
Definition unseen_in_process (chat_uuid : chat_key) (w : World) : Prop :=
  _llm_chat_completion (ctx_class w) !! chat_uuid = None ∧
  _llm_required_tool_call (ctx_class w) !! chat_uuid = None ∧
  _llm_available_tools_in_chat (ctx_class w) !! chat_uuid = None ∧
  _agents_sequence (ctx_class w) !! chat_uuid = None ∧
  _route_response_to (ctx_class w) !! chat_uuid = None ∧
  _agent_phase_assignments (ctx_class w) !! chat_uuid = None ∧
  _current_phase (ctx_class w) !! chat_uuid = None ∧
  _required_agents_for_current_phase (ctx_class w) !! chat_uuid = None ∧
  _queries (ctx_class w) !! chat_uuid = None ∧
  _collaboration_type (ctx_class w) !! chat_uuid = None.

(** No hash on the server has the chat id as a field. *)
Definition unseen_on_redis (c : string) (w : World) : Prop :=
  r_llm_chat_completion (redis w) !! c = None ∧
  r_llm_required_tool_call (redis w) !! c = None ∧
  r_llm_available_tools_in_chat (redis w) !! c = None ∧
  r_agents_sequence (redis w) !! c = None ∧
  r_route_response_to (redis w) !! c = None ∧
  r_agent_phase_assignments (redis w) !! c = None ∧
  r_current_phase (redis w) !! c = None ∧
  r_required_agents_for_current_phase (redis w) !! c = None ∧
  r_queries (redis w) !! c = None ∧
  r_collaboration_type (redis w) !! c = None.

(** ** What the agent runtime is expected to do *)

(** The value of [get_conversation_history_if_needed], as a function of
    the map [llm_chat_completion] returned: what [dict.get] finds for the
    chat id, [None] when the chat has no history, if the chat id is neither
    [None] nor empty and the collaboration type is PHASED or CHAT; the
    empty list otherwise. *)
Definition history_for
    (stored : gmap chat_key (list ChatCompletionMessageParam))
    (chat_id : option string) (t : option WiseAgentCollaborationType)
    : option (list ChatCompletionMessageParam) :=
  match t with
  | Some PHASED | Some CHAT =>
      if py_truthy chat_id then stored !! chat_id else Some []
  | Some SEQUENTIAL | Some INDEPENDENT | None => Some []
  end.

(** The agent after the first occurrence of [current_agent], if any. *)
Definition next_in (agents_sequence : list string) (current_agent : string)
    : option string :=
  i ← py_index current_agent agents_sequence; agents_sequence !! (i + 1).

(** The message [handle_response] builds on sequential collaboration. *)
Definition routed (self : WiseAgent) (context : WiseAgentContext)
    (request : WiseAgentMessage) (response : string) : WiseAgentMessage :=
  {| message := response; message_type := None; sender := wa_name self;
     context_name := name context; chat_id := request.(chat_id) |}.

(** ** The phased protocol on the phases [[A, B], [C]] *)

(** The phases are assigned to the chat and phase 0 is made current. *)
Definition start_phases (self : WiseAgentContext) (chat_uuid : chat_key)
    (A B C : string) : M unit :=
  let* phases := new_lists [[A; B]; [C]] in
  set_agent_phase_assignments self chat_uuid phases;;
  set_current_phase self chat_uuid 0.

(** Then A and B complete. *)
Definition finish_first_phase (self : WiseAgentContext) (chat_uuid : chat_key)
    (A B : string) : M unit :=
  remove_required_agent_for_current_phase self chat_uuid A;;
  remove_required_agent_for_current_phase self chat_uuid B.

(** ** Calls on a chat *)

(** The operations of a context that change what it holds for a chat id. *)
Inductive mutation :=
  | Append_chat_completion (messages : ChatCompletionMessageParam)
  | Append_required_tool_call (tool_name : string)
  | Remove_required_tool_call (tool_name : string)
  | Append_available_tool_in_chat (tools : ChatCompletionToolParam)
  | Set_agents_sequence (agents_sequence : list string)
  | Set_route_response_to (agent : string)
  | Set_agent_phase_assignments (agent_phase_assignments : list loc)
  | Set_current_phase (phase : Z)
  | Get_agents_for_next_phase
  | Remove_required_agent_for_current_phase (agent_name : string)
  | Add_query (query : string)
  | Set_collaboration_type (collaboration_type : WiseAgentCollaborationType).

Definition perform (self : WiseAgentContext) (chat_uuid : chat_key)
    (m : mutation) : M unit :=
  match m with
  | Append_chat_completion x => append_chat_completion self chat_uuid x
  | Append_required_tool_call x => append_required_tool_call self chat_uuid x
  | Remove_required_tool_call x => remove_required_tool_call self chat_uuid x
  | Append_available_tool_in_chat x =>
      append_available_tool_in_chat self chat_uuid x
  | Set_agents_sequence x => set_agents_sequence self chat_uuid x
  | Set_route_response_to x => set_route_response_to self chat_uuid x
  | Set_agent_phase_assignments x =>
      set_agent_phase_assignments self chat_uuid x
  | Set_current_phase x => set_current_phase self chat_uuid x
  | Get_agents_for_next_phase => get_agents_for_next_phase self chat_uuid;; ret tt
  | Remove_required_agent_for_current_phase x =>
      remove_required_agent_for_current_phase self chat_uuid x
  | Add_query x => add_query self chat_uuid x
  | Set_collaboration_type x => set_collaboration_type self chat_uuid x
  end.

(** What the class-level maps hold for a chat id. *)
Definition entries_in_process (chat_uuid : chat_key) (w : World) :=
  (_llm_chat_completion (ctx_class w) !! chat_uuid,
   _llm_required_tool_call (ctx_class w) !! chat_uuid,
   _llm_available_tools_in_chat (ctx_class w) !! chat_uuid,
   _agents_sequence (ctx_class w) !! chat_uuid,
   _route_response_to (ctx_class w) !! chat_uuid,
   _agent_phase_assignments (ctx_class w) !! chat_uuid,
   _current_phase (ctx_class w) !! chat_uuid,
   _required_agents_for_current_phase (ctx_class w) !! chat_uuid,
   _queries (ctx_class w) !! chat_uuid,
   _collaboration_type (ctx_class w) !! chat_uuid).

(** What the hashes of the server hold for a chat id. *)
Definition entries_on_redis (c : string) (w : World) :=
  (r_llm_chat_completion (redis w) !! c,
   r_llm_required_tool_call (redis w) !! c,
   r_llm_available_tools_in_chat (redis w) !! c,
   r_agents_sequence (redis w) !! c,
   r_route_response_to (redis w) !! c,
   r_agent_phase_assignments (redis w) !! c,
   r_current_phase (redis w) !! c,
   r_required_agents_for_current_phase (redis w) !! c,
   r_queries (redis w) !! c,
   r_collaboration_type (redis w) !! c).

(** The parts of the state that belong to no chat id. *)
Definition bystanders (w : World) :=
  (_participants (ctx_class w), _message_trace (ctx_class w),
   r_participants (redis w), r_message_trace (redis w),
   r_agents (redis w), r_contexts (redis w), registry w, transport_log w).

(** ** What the stores hold *)

(** The stored history of a chat id, if the context holds one. *)
Definition stored_history (self : WiseAgentContext) (chat_uuid : chat_key)
    (w : World) : option (list ChatCompletionMessageParam) :=
  if _use_redis self
  then c ← chat_uuid; r_llm_chat_completion (redis w) !! c
  else _llm_chat_completion (ctx_class w) !! chat_uuid.

(** The context the registry holds under a name, in the store its
    configuration selects. *)
Definition registered_context (context_name : string) (w : World)
    : option WiseAgentContext :=
  if use_redis (config (registry w))
  then r_contexts (redis w) !! context_name
  else contexts (registry w) !! context_name.

(** Everything the two stores hold for the chats, with the heap. *)
Definition chats (w : World) :=
  (_llm_chat_completion (ctx_class w),
   _llm_required_tool_call (ctx_class w),
   _llm_available_tools_in_chat (ctx_class w),
   _agents_sequence (ctx_class w),
   _route_response_to (ctx_class w),
   _agent_phase_assignments (ctx_class w),
   _current_phase (ctx_class w),
   _required_agents_for_current_phase (ctx_class w),
   _queries (ctx_class w),
   _collaboration_type (ctx_class w),
   heap w,
   (r_llm_chat_completion (redis w),
    r_llm_required_tool_call (redis w),
    r_llm_available_tools_in_chat (redis w),
    r_agents_sequence (redis w),
    r_route_response_to (redis w),
    r_agent_phase_assignments (redis w),
    r_current_phase (redis w),
    r_required_agents_for_current_phase (redis w),
    r_queries (redis w),
    r_collaboration_type (redis w))).

(** ** Series of calls *)

(** [append_chat_completion] for each message in turn. *)
Fixpoint append_chat_completions (self : WiseAgentContext)
    (chat_uuid : chat_key) (msgs : list ChatCompletionMessageParam) : M unit :=
  match msgs with
  | [] => ret tt
  | messages :: rest =>
      append_chat_completion self chat_uuid messages;;
      append_chat_completions self chat_uuid rest
  end.

(** [send_request] or [send_response], by the queue of the transport. *)
Definition send (on : queue)
    : WiseAgent → WiseAgentMessage → string → M unit :=
  match on with
  | RequestQueue => send_request
  | ResponseQueue => send_response
  end.

(** The message [handle_response] builds, with the type it gives it. *)
Definition reply (self : WiseAgent) (context : WiseAgentContext)
    (request : WiseAgentMessage) (response : string)
    (t : option WiseAgentMessageType) : WiseAgentMessage :=
  {| message := response; message_type := t; sender := wa_name self;
     context_name := name context; chat_id := request.(chat_id) |}.

(** The calls a program makes on contexts, agents and the registry. *)
Inductive call :=
  | On_chat (self : WiseAgentContext) (chat_uuid : chat_key) (m : mutation)
  | Add_participant (self : WiseAgentContext) (agent_name : string)
  | Trace (self : WiseAgentContext) (msg : WiseAgentMessage)
  | Send (on : queue) (self : WiseAgent) (msg : WiseAgentMessage)
      (dest_agent_name : string)
  | Get_or_create_context (context_name : string)
  | Remove_context (context_name : string)
  | Start_agent (self : WiseAgent)
  | Stop_agent (self : WiseAgent).

Definition run_call (c : call) : M unit :=
  match c with
  | On_chat self chat_uuid m => perform self chat_uuid m
  | Add_participant self agent_name => add_participant self agent_name
  | Trace self msg => trace self msg
  | Send on self msg dest_agent_name => send on self msg dest_agent_name
  | Get_or_create_context context_name =>
      get_or_create_context context_name;; ret tt
  | Remove_context context_name => remove_context context_name
  | Start_agent self => start_agent self
  | Stop_agent self => stop_agent self
  end.

(** The state after a series of calls, each of which returned or raised. *)
Definition run_calls (cs : list call) (w : World) : World :=
  foldl (λ w c, state_after (run_call c) w) w cs.

(** ** The history an agent is to be given *)






(** ** The two backends side by side *)





(** ** Concrete inputs *)

(** A context on the in-process backend and one on Redis. *)
Definition local_context : WiseAgentContext :=
  {| _name := "default"; _config := default_config |}.

Definition redis_config : Config := {| use_redis := true |}.

Definition redis_context : WiseAgentContext :=
  {| _name := "default"; _config := redis_config |}.

(** A state with one pending tool call, ["toolY"], for ["chat1"]. *)
Definition one_pending_tool_call : World :=
  state_after (append_required_tool_call local_context (Some "chat1") "toolY")
    (initial_world default_config).

(** An agent that answers nothing, a request, and a chat with the sequence
    A, B, C and the route R. *)
Definition quiet_agent (n : string) : WiseAgent :=
  {| wa_name := n; wa_description := "an agent";
     process_request := fun _ _ => ret None |}.

Definition request_from (s : string) : WiseAgentMessage :=
  {| message := "question"; message_type := Some REQUEST; sender := s;
     context_name := "default"; chat_id := Some "chat1" |}.

Definition sequence_ABC : World :=
  state_after
    (set_collaboration_type local_context (Some "chat1") SEQUENTIAL;;
     set_agents_sequence local_context (Some "chat1") ["A"; "B"; "C"];;
     set_route_response_to local_context (Some "chat1") "R")
    (initial_world default_config).

(** A PHASED chat whose id is the empty string, with one stored message. *)
Definition phased_chat_with_empty_id : World :=
  state_after
    (set_collaboration_type local_context (Some "") PHASED;;
     append_chat_completion local_context (Some "")
       {| role := "assistant"; content := "hello" |})
    (initial_world default_config).

(** A state whose heap holds the two phase lists [["A", "B"]] and [["C"]],
    as objects 0 and 1. *)
Definition two_phase_lists : World :=
  state_after (new_lists [["A"; "B"]; ["C"]]) (initial_world default_config).

(** The in-process and the Redis state once A and B have completed phase 0
    of ["chat1"]. *)
Definition first_phase_done_in_process : World :=
  state_after
    (start_phases local_context (Some "chat1") "A" "B" "C";;
     finish_first_phase local_context (Some "chat1") "A" "B")
    (initial_world default_config).

Definition first_phase_done_on_redis : World :=
  state_after
    (start_phases redis_context (Some "chat1") "A" "B" "C";;
     finish_first_phase redis_context (Some "chat1") "A" "B")
    (initial_world redis_config).

(** Two messages of a chat. *)
Definition two_messages : list ChatCompletionMessageParam :=
  [{| role := "user"; content := "hi" |};
   {| role := "assistant"; content := "hello" |}].

(** A server that holds two queries for ["chat1"]. *)
Definition two_queries_on_redis : World :=
  state_after
    (add_query redis_context (Some "chat1") "q1";;
     add_query redis_context (Some "chat1") "q2")
    (initial_world redis_config).

(** The phases [[A, B], [C]] assigned to ["chat1"], and the state once
    phase 0 is current. *)
Definition phases_assigned : World :=
  state_after
    (let* phases := new_lists [["A"; "B"]; ["C"]] in
     set_agent_phase_assignments local_context (Some "chat1") phases)
    (initial_world default_config).

Definition first_phase_current : World :=
  state_after (start_phases local_context (Some "chat1") "A" "B" "C")
    (initial_world default_config).

(** A sequential chat with the sequence A, B, C and no route. *)
Definition sequence_ABC_without_route : World :=
  state_after
    (set_collaboration_type local_context (Some "chat1") SEQUENTIAL;;
     set_agents_sequence local_context (Some "chat1") ["A"; "B"; "C"])
    (initial_world default_config).

(** An agent adds itself, sends a request and adds itself again. *)
Definition some_calls : list call :=
  [Add_participant local_context "A";
   Send RequestQueue (quiet_agent "A") (request_from "A") "B";
   Add_participant local_context "A"].

(** The items of a parsed YAML object, one key already with an underscore. *)
Definition parsed_agent : list (string * string) :=
  [("name", "Agent1"); ("_hidden", "x"); ("description", "an agent")].








(** * Properties *)

(** ** Symbolic execution *)

Ltac unfold_prims :=
  unfold bind, ret, raise, read, update, or_raise, dict_contains, dict_get,
    dict_getitem, dict_setitem, dict_pop, hexists, hget, hset, hdel, hgetall,
    field, exists_list, rpush, lrange, new_list, list_items, list_remove,
    deepcopy, result_of, state_after.

Ltac exec_step :=
  first
  [ progress unfold_prims
  | progress simpl
  | rewrite lookup_insert_eq
  | rewrite lookup_delete_eq
  | rewrite lookup_insert_ne by congruence
  | rewrite lookup_delete_ne by congruence
  | rewrite decide_True by reflexivity
  | match goal with
    | H : ?m !! ?k = _ |- context [?m !! ?k] => rewrite H
    end ].

Ltac exec := repeat exec_step.

(** Name every component of a state. *)
Ltac destruct_world w :=
  let c := fresh "cls" in let h := fresh "hp" in let r := fresh "rds" in
  let g := fresh "reg" in let t := fresh "log" in
  destruct w as [c h r g t]; destruct c, r, g;
  repeat match goal with cfg : Config |- _ => destruct cfg end;
  simpl in *.

(** ** The list helpers *)

Example py_getitem_negative :
  py_getitem ["a"; "b"; "c"] (-1) = Some "c" ∧
  py_getitem ["a"; "b"; "c"] (-3) = Some "a" ∧
  py_getitem ["a"; "b"; "c"] (-4) = None ∧
  py_getitem ["a"; "b"; "c"] 3 = None.
Proof. repeat split. Qed.

Example py_remove_first_occurrence :
  py_remove "a" ["b"; "a"; "c"; "a"] = Some ["b"; "c"; "a"] ∧
  py_remove "d" ["b"; "a"] = None.
Proof. split; reflexivity. Qed.

Example py_index_first_occurrence :
  py_index "a" ["b"; "a"; "c"; "a"] = Some 1 ∧ py_index "d" ["b"; "a"] = None.
Proof. split; reflexivity. Qed.

Lemma py_remove_None {A} `{EqDecision A} (x : A) (l : list A) :
  x ∉ l → py_remove x l = None.
Proof.
  induction l as [|y l IH]; intros Hx; simpl; [done|].
  rewrite not_elem_of_cons in Hx. destruct Hx as [Hne Hx].
  rewrite decide_False by done. by rewrite IH.
Qed.

Lemma py_index_first {A} `{EqDecision A} (x : A) (before after : list A) :
  x ∉ before → py_index x (before ++ x :: after) = Some (length before).
Proof.
  induction before as [|y l IH]; intros Hx; simpl.
  - by rewrite decide_True.
  - rewrite not_elem_of_cons in Hx. destruct Hx as [Hne Hx].
    rewrite decide_False by done. by rewrite IH.
Qed.

Lemma py_in_true {A} `{EqDecision A} (x : A) (l : list A) :
  x ∈ l → py_in x l = true.
Proof. intros. unfold py_in. by apply bool_decide_eq_true. Qed.

Lemma py_in_false {A} `{EqDecision A} (x : A) (l : list A) :
  x ∉ l → py_in x l = false.
Proof. intros. unfold py_in. by apply bool_decide_eq_false. Qed.

(** A [str] is never found among [bytes]. *)
Lemma py_in_str_bytes (s : string) (l : list string) :
  py_in (PyStr s) (PyBytes <$> l) = false.
Proof.
  apply py_in_false. intros (y & Hy & _)%list_elem_of_fmap. discriminate.
Qed.

Lemma py_in_str_str (s : string) (l : list string) :
  py_in (PyStr s) (PyStr <$> l) = py_in s l.
Proof.
  unfold py_in. apply bool_decide_ext. split.
  - intros (y & [= ->] & Hy)%list_elem_of_fmap. done.
  - intros. apply list_elem_of_fmap. eauto.
Qed.

(** ** Pending tool calls *)

(** C8.  Appending a tool name for a chat id that has nothing pending and
    then removing that name gives back the very state from before the append:
    the key is deleted, not left with an empty list.  In between, the name is
    the one pending call. *)
Theorem append_then_remove_required_tool_call
    (self : WiseAgentContext) (chat_uuid : chat_key) (tool : string) (w : World) :
  no_pending_tool_call self chat_uuid w →
  (append_required_tool_call self chat_uuid tool;;
   remove_required_tool_call self chat_uuid tool) w = (Val tt, w) ∧
  result_of (append_required_tool_call self chat_uuid tool;;
             get_required_tool_calls self chat_uuid) w = Val [tool].
Proof.
  intros [Hl Hr].
  unfold append_required_tool_call, remove_required_tool_call,
    get_required_tool_calls.
  destruct (_use_redis self) eqn:E.
  - destruct (Hr eq_refl) as (c & -> & Hc). clear Hr.
    destruct_world w. exec.
    rewrite delete_insert_id by done. done.
  - clear Hr. destruct_world w. exec.
    rewrite !insert_insert_eq, delete_insert_id by done. done.
Qed.

Lemma append_then_remove_required_tool_call_witness :
  (append_required_tool_call redis_context (Some "chat1") "toolX";;
   remove_required_tool_call redis_context (Some "chat1") "toolX")
    (initial_world redis_config) = (Val tt, initial_world redis_config) ∧
  result_of (append_required_tool_call redis_context (Some "chat1") "toolX";;
             get_required_tool_calls redis_context (Some "chat1"))
    (initial_world redis_config) = Val ["toolX"].
Proof.
  apply (append_then_remove_required_tool_call redis_context (Some "chat1")
           "toolX" (initial_world redis_config)).
  split; [reflexivity|].
  intros _. exists "chat1". split; reflexivity.
Defined.

(** ** Removing what is not there *)

(** C9, refuted as stated: with ["toolY"] pending for the chat id, removing
    ["toolX"], which is not present, raises [ValueError]. *)
Lemma remove_absent_tool_call_raises :
  pending_tool_calls local_context (Some "chat1") one_pending_tool_call
    = Some ["toolY"] ∧
  result_of (remove_required_tool_call local_context (Some "chat1") "toolX")
    one_pending_tool_call = Raise ValueError.
Proof. split; vm_compute; reflexivity. Qed.

(** C9, amended.  Removal is a no-op when the chat id has no entry at all:
    the call returns and the state is unchanged.  When the chat id has a
    list that does not hold the name, the call raises [ValueError]; the state
    is unchanged then too. *)
Theorem remove_not_present
    (self : WiseAgentContext) (chat_uuid : chat_key) (x : string) (w : World) :
  addressable self chat_uuid →
  (pending_tool_calls self chat_uuid w = None →
   remove_required_tool_call self chat_uuid x w = (Val tt, w)) ∧
  (required_agents self chat_uuid w = None →
   remove_required_agent_for_current_phase self chat_uuid x w = (Val tt, w)) ∧
  (∀ l, pending_tool_calls self chat_uuid w = Some l → x ∉ l →
   remove_required_tool_call self chat_uuid x w = (Raise ValueError, w)) ∧
  (∀ l, required_agents self chat_uuid w = Some l → x ∉ l →
   remove_required_agent_for_current_phase self chat_uuid x w
     = (Raise ValueError, w)).
Proof.
  unfold addressable, pending_tool_calls, required_agents,
    remove_required_tool_call, remove_required_agent_for_current_phase.
  intros Haddr. destruct (_use_redis self) eqn:E.
  - destruct (Haddr eq_refl) as [c ->]. simpl.
    repeat split.
    + intros Hc. destruct_world w. exec. done.
    + intros Hc. destruct_world w. exec. done.
    + intros l Hc Hx. destruct_world w. exec.
      rewrite (py_remove_None _ _ Hx). done.
    + intros l Hc Hx. destruct_world w. exec.
      rewrite (py_remove_None _ _ Hx). done.
  - clear Haddr. repeat split.
    + intros Hc. destruct_world w. exec. done.
    + intros Hc. destruct_world w.
      destruct (_ !! chat_uuid) eqn:Hk; [done|]. exec. done.
    + intros l Hc Hx. destruct_world w. exec.
      rewrite (py_remove_None _ _ Hx). done.
    + intros l Hc Hx. destruct_world w.
      destruct (_ !! chat_uuid) as [k|] eqn:Hk; [|done].
      simpl in Hc. injection Hc as <-. exec.
      rewrite (py_remove_None _ _ Hx). done.
Qed.

Lemma remove_not_present_witness :
  remove_required_tool_call redis_context (Some "chat2") "toolX"
    (initial_world redis_config) = (Val tt, initial_world redis_config) ∧
  remove_required_agent_for_current_phase redis_context (Some "chat2") "A"
    (initial_world redis_config) = (Val tt, initial_world redis_config) ∧
  remove_required_tool_call local_context (Some "chat1") "toolX"
    one_pending_tool_call = (Raise ValueError, one_pending_tool_call).
Proof.
  destruct (remove_not_present redis_context (Some "chat2") "toolX"
              (initial_world redis_config)) as (H1 & _);
    [intros _; eexists; reflexivity|].
  destruct (remove_not_present redis_context (Some "chat2") "A"
              (initial_world redis_config)) as (_ & H2 & _);
    [intros _; eexists; reflexivity|].
  destruct (remove_not_present local_context (Some "chat1") "toolX"
              one_pending_tool_call) as (_ & _ & H3 & _);
    [intros H; discriminate H|].
  split; [apply H1; reflexivity|].
  split; [apply H2; reflexivity|].
  apply (H3 ["toolY"]); [reflexivity|].
  intros H. apply list_elem_of_singleton in H. discriminate H.
Defined.

(** ** Participants *)

(** On the in-process backend [add_participant] keeps the list free of
    duplicates, the name is in it afterwards, and a second call with the same
    name changes nothing. *)
Lemma add_participant_in_process
    (self : WiseAgentContext) (agent_name : string) (w : World) :
  _use_redis self = false →
  NoDup (_participants (ctx_class w)) →
  let w1 := state_after (add_participant self agent_name) w in
  NoDup (_participants (ctx_class w1)) ∧
  agent_name ∈ _participants (ctx_class w1) ∧
  add_participant self agent_name w1 = (Val tt, w1).
Proof.
  intros E Hnd. unfold add_participant, participants. rewrite E.
  destruct_world w. exec. rewrite py_in_str_str.
  destruct (py_in agent_name _participants0) eqn:Hin; exec.
  - apply bool_decide_eq_true in Hin.
    rewrite py_in_str_str, py_in_true by done. done.
  - apply bool_decide_eq_false in Hin.
    assert (agent_name ∈ _participants0 ++ [agent_name]) as Hnew
      by (apply elem_of_app; right; apply list_elem_of_singleton; done).
    rewrite py_in_str_str, py_in_true by done.
    split; [|done].
    apply NoDup_app. split; [done|]. split; [|apply NoDup_singleton].
    intros x Hx Hx'. apply list_elem_of_singleton in Hx'. by subst.
Qed.

(** On Redis the test [agent_name not in pipe.lrange(...)] compares a [str]
    with [bytes] and always succeeds: every call pushes the name. *)
Lemma add_participant_on_redis
    (self : WiseAgentContext) (agent_name : string) (w : World) :
  _use_redis self = true →
  add_participant self agent_name w
    = (Val tt, over db_participants (fun l => l ++ [agent_name]) w).
Proof.
  intros E. unfold add_participant. rewrite E.
  destruct_world w. exec.
  destruct r_participants0 as [|p ps]; exec; [done|].
  pose proof (py_in_str_bytes agent_name (p :: ps)) as Hb.
  simpl in Hb. by rewrite Hb.
Qed.

(** C10, on the failing input: a Redis-backed context over an empty server.
    Two calls of [add_participant] with ["agent1"] leave the name twice in
    the list of participants, and the second call did change the state. *)
Theorem add_participant_twice_on_redis :
  r_participants (redis (state_after
    (add_participant redis_context "agent1";;
     add_participant redis_context "agent1") (initial_world redis_config)))
    = ["agent1"; "agent1"] ∧
  r_participants (redis (state_after
    (add_participant redis_context "agent1") (initial_world redis_config)))
    = ["agent1"].
Proof. split; vm_compute; reflexivity. Qed.

(** ** Agent registration *)

(** Without an attribute [agents] on the class, registration on the
    in-process backend raises [AttributeError] and registers nothing. *)
Lemma register_agent_in_process
    (agent_name agent_description : string) (w : World) :
  use_redis (config (registry w)) = false →
  agents (registry w) = None →
  register_agent agent_name agent_description w = (Raise AttributeError, w).
Proof.
  intros E Ha. unfold register_agent, get_config.
  destruct_world w. subst. exec. done.
Qed.

(** If something did assign [WiseAgentRegistry.agents], the registration
    would go there: the directory that [get_agent_description] reads,
    [agents_descriptions_dict], is not touched. *)
Lemma register_agent_in_process_directory
    (agent_name agent_description : string) (w : World) :
  use_redis (config (registry w)) = false →
  agents_descriptions_dict (registry (state_after
    (register_agent agent_name agent_description) w))
    = agents_descriptions_dict (registry w).
Proof.
  intros E. unfold register_agent, get_config.
  destruct_world w. subst. exec.
  destruct agents0 as [d|]; exec; [|done].
  destruct (d !! agent_name); exec; done.
Qed.

(** On Redis a new name is inserted and the call returns. *)
Lemma register_agent_on_redis_new
    (agent_name agent_description : string) (w : World) :
  use_redis (config (registry w)) = true →
  r_agents (redis w) !! agent_name = None →
  register_agent agent_name agent_description w
    = (Val tt, over db_agents (insert agent_name agent_description) w).
Proof.
  intros E Ha. unfold register_agent, get_config.
  destruct_world w. subst. exec. done.
Qed.

(** On Redis a name already present raises [NameError] and the state, with
    the first registration's entry, is unchanged. *)
Lemma register_agent_on_redis_conflict
    (agent_name agent_description first : string) (w : World) :
  use_redis (config (registry w)) = true →
  r_agents (redis w) !! agent_name = Some first →
  register_agent agent_name agent_description w = (Raise NameError, w).
Proof.
  intros E Ha. unfold register_agent, get_config.
  destruct_world w. subst. exec. done.
Qed.

(** C4, on the failing input: the in-process registry right after start-up.
    Registering ["Agent1"] raises [AttributeError], not a naming conflict,
    and the agent directory stays empty. *)
Theorem register_agent_in_process_raises :
  register_agent "Agent1" "a test agent" (initial_world default_config)
    = (Raise AttributeError, initial_world default_config) ∧
  result_of (get_agent_description "Agent1") (initial_world default_config)
    = Val None.
Proof. split; vm_compute; reflexivity. Qed.

(** ** Chat ids never seen *)

Lemma unseen_initially (cfg : Config) (chat_uuid : chat_key) (c : string) :
  unseen_in_process chat_uuid (initial_world cfg) ∧
  unseen_on_redis c (initial_world cfg).
Proof. split; repeat split; apply lookup_empty. Qed.

(** On the in-process backend every getter gives its neutral default for an
    unseen chat id, and changes nothing. *)
Lemma unseen_defaults_in_process
    (self : WiseAgentContext) (chat_uuid : chat_key) (w : World) :
  _use_redis self = false →
  unseen_in_process chat_uuid w →
  get_agents_sequence self chat_uuid w = (Val [], w) ∧
  get_required_tool_calls self chat_uuid w = (Val [], w) ∧
  get_available_tools_in_chat self chat_uuid w = (Val [], w) ∧
  get_agent_phase_assignments self chat_uuid w = (Val [], w) ∧
  get_required_agents_for_current_phase self chat_uuid w = (Val [], w) ∧
  get_queries self chat_uuid w = (Val [], w) ∧
  get_route_response_to self chat_uuid w = (Val None, w) ∧
  get_current_phase self chat_uuid w = (Val None, w) ∧
  get_current_query self chat_uuid w = (Val None, w) ∧
  get_collaboration_type self chat_uuid w = (Val (Some INDEPENDENT), w).
Proof.
  intros E (H1 & H2 & H3 & H4 & H5 & H6 & H7 & H8 & H9 & H10).
  unfold get_agents_sequence, get_required_tool_calls,
    get_available_tools_in_chat, get_agent_phase_assignments,
    get_required_agents_for_current_phase, get_queries,
    get_route_response_to, get_current_phase, get_current_query,
    get_collaboration_type.
  rewrite E. destruct_world w. repeat split; exec; done.
Qed.

(** On Redis nine of the getters give their default for an unseen chat id;
    [get_collaboration_type] returns [None] instead of [INDEPENDENT]. *)
Lemma unseen_defaults_on_redis
    (self : WiseAgentContext) (c : string) (w : World) :
  _use_redis self = true →
  unseen_on_redis c w →
  get_agents_sequence self (Some c) w = (Val [], w) ∧
  get_required_tool_calls self (Some c) w = (Val [], w) ∧
  get_available_tools_in_chat self (Some c) w = (Val [], w) ∧
  get_agent_phase_assignments self (Some c) w = (Val [], w) ∧
  get_required_agents_for_current_phase self (Some c) w = (Val [], w) ∧
  get_queries self (Some c) w = (Val [], w) ∧
  get_route_response_to self (Some c) w = (Val None, w) ∧
  get_current_phase self (Some c) w = (Val None, w) ∧
  get_current_query self (Some c) w = (Val None, w) ∧
  get_collaboration_type self (Some c) w = (Val None, w).
Proof.
  intros E (H1 & H2 & H3 & H4 & H5 & H6 & H7 & H8 & H9 & H10).
  unfold get_agents_sequence, get_required_tool_calls,
    get_available_tools_in_chat, get_agent_phase_assignments,
    get_required_agents_for_current_phase, get_queries,
    get_route_response_to, get_current_phase, get_current_query,
    get_collaboration_type.
  rewrite E. destruct_world w. repeat split; exec; done.
Qed.

(** C5, on the failing input: a Redis-backed context over an empty server
    and the chat id ["chat1"], on which nothing was ever called.
    [get_collaboration_type] returns Python's [None], not [INDEPENDENT]. *)
Theorem get_collaboration_type_unseen_on_redis :
  get_collaboration_type redis_context (Some "chat1")
    (initial_world redis_config) = (Val None, initial_world redis_config).
Proof. vm_compute. reflexivity. Qed.

(** ** Contexts share their chat state *)

(** C3.  Two contexts constructed with the same configuration, whatever
    their names, work on the same maps, the class-level attributes (or the
    one server): the two instances differ in [_name] only, and no operation
    looks at it.  A chat completion appended through the first is in the
    history the second reads, a participant added through the first is among
    the participants of the second, and a collaboration type set through the
    first is the one the second returns. *)
Theorem contexts_share_chat_state
    (name1 name2 : string) (cfg : Config) (chat_uuid : chat_key)
    (msg : ChatCompletionMessageParam) (agent_name : string)
    (t : WiseAgentCollaborationType) (w : World) :
  let c1 := {| _name := name1; _config := cfg |} in
  let c2 := {| _name := name2; _config := cfg |} in
  addressable c1 chat_uuid →
  result_of (__init__ name1 cfg) w = Val c1 ∧
  result_of (__init__ name2 cfg) w = Val c2 ∧
  (∃ history,
     llm_chat_completion c2 w = (Val history, w) ∧
     result_of (append_chat_completion c1 chat_uuid msg;;
                llm_chat_completion c2) w
       = Val (<[chat_uuid := default [] (history !! chat_uuid) ++ [msg]]>
                history)) ∧
  (∃ stored,
     result_of (add_participant c1 agent_name;; participants c2) w
       = Val stored ∧
     as_read c2 agent_name ∈ stored) ∧
  result_of (set_collaboration_type c1 chat_uuid t;;
             get_collaboration_type c2 chat_uuid) w = Val (Some t).
Proof.
  intros c1 c2 Haddr. subst c1 c2.
  unfold addressable, as_read, __init__, register_context, get_config,
    llm_chat_completion, append_chat_completion, add_participant,
    participants, set_collaboration_type, get_collaboration_type,
    _use_redis in *.
  simpl in *. destruct cfg as [[|]].
  - destruct (Haddr eq_refl) as [c ->]. clear Haddr.
    destruct_world w. split; [|split; [|split; [|split]]].
    + destruct use_redis0; exec; done.
    + destruct use_redis0; exec; done.
    + eexists. split; [reflexivity|].
      rewrite lookup_kmap by apply _.
      destruct (r_llm_chat_completion0 !! c) as [l|] eqn:Hl; exec.
      * by rewrite kmap_insert by apply _.
      * by rewrite kmap_insert by apply _.
    + exec. destruct r_participants0 as [|p ps]; exec.
      * eexists. split; [reflexivity|]. by apply list_elem_of_singleton.
      * pose proof (py_in_str_bytes agent_name (p :: ps)) as Hb.
        simpl in Hb. rewrite Hb. exec.
        eexists. split; [reflexivity|].
        right. apply list_elem_of_fmap. exists agent_name. split; [done|].
        apply elem_of_app. right. by apply list_elem_of_singleton.
    + exec. done.
  - clear Haddr. destruct_world w. split; [|split; [|split; [|split]]].
    + destruct use_redis0; exec; done.
    + destruct use_redis0; exec; done.
    + eexists. split; [reflexivity|].
      destruct (_llm_chat_completion0 !! chat_uuid) as [l|] eqn:Hl; exec.
      * done.
      * by rewrite insert_insert_eq.
    + exec. rewrite py_in_str_str.
      destruct (py_in agent_name _participants0) eqn:Hin; exec.
      * eexists. split; [reflexivity|].
        apply bool_decide_eq_true in Hin. apply list_elem_of_fmap. eauto.
      * eexists. split; [reflexivity|].
        apply list_elem_of_fmap. exists agent_name. split; [done|].
        apply elem_of_app. right. by apply list_elem_of_singleton.
    + exec. done.
Qed.

Lemma contexts_share_chat_state_witness :
  result_of (__init__ "context1" redis_config) (initial_world redis_config)
    = Val {| _name := "context1"; _config := redis_config |} ∧
  result_of (__init__ "context2" redis_config) (initial_world redis_config)
    = Val {| _name := "context2"; _config := redis_config |} ∧
  (∃ history,
     llm_chat_completion {| _name := "context2"; _config := redis_config |}
       (initial_world redis_config)
       = (Val history, initial_world redis_config) ∧
     result_of
       (append_chat_completion
          {| _name := "context1"; _config := redis_config |} (Some "chat1")
          {| role := "assistant"; content := "hello" |};;
        llm_chat_completion {| _name := "context2"; _config := redis_config |})
       (initial_world redis_config)
       = Val (<[Some "chat1" :=
                  default [] (history !! Some "chat1") ++
                  [{| role := "assistant"; content := "hello" |}]]> history)) ∧
  (∃ stored,
     result_of
       (add_participant {| _name := "context1"; _config := redis_config |}
          "agent1";;
        participants {| _name := "context2"; _config := redis_config |})
       (initial_world redis_config) = Val stored ∧
     as_read {| _name := "context2"; _config := redis_config |} "agent1"
       ∈ stored) ∧
  result_of
    (set_collaboration_type
       {| _name := "context1"; _config := redis_config |} (Some "chat1") PHASED;;
     get_collaboration_type
       {| _name := "context2"; _config := redis_config |} (Some "chat1"))
    (initial_world redis_config) = Val (Some PHASED).
Proof.
  apply (contexts_share_chat_state "context1" "context2" redis_config
           (Some "chat1") {| role := "assistant"; content := "hello" |}
           "agent1" PHASED (initial_world redis_config)).
  intros _. eexists. reflexivity.
Defined.

(** ** The history an agent is given *)

(** A context is always found or created, and that leaves the chat state
    alone: on the server only the hash of contexts can change. *)
Lemma get_or_create_context_returns (context_name : string) (w : World) :
  ∃ context w1,
    get_or_create_context context_name w = (Val context, w1) ∧
    ctx_class w1 = ctx_class w ∧ heap w1 = heap w ∧
    transport_log w1 = transport_log w ∧
    config (registry w1) = config (registry w) ∧
    (∃ f, redis w1 = redis (over db_contexts f w)).
Proof.
  unfold get_or_create_context, __init__, register_context, get_config.
  destruct_world w. destruct use_redis0; exec.
  - destruct (r_contexts0 !! context_name) as [c|] eqn:Hc; exec.
    + do 2 eexists. repeat split. by exists id.
    + do 2 eexists. repeat split. by eexists (insert _ _).
  - destruct (contexts0 !! context_name) as [c|] eqn:Hc; exec.
    + do 2 eexists. repeat split. by exists id.
    + do 2 eexists. repeat split. by exists id.
Qed.

(** The getters used by [handle_request] return and change nothing. *)
Lemma get_collaboration_type_reads
    (self : WiseAgentContext) (chat_uuid : chat_key) (w : World) :
  ∃ t, get_collaboration_type self chat_uuid w = (Val t, w).
Proof.
  unfold get_collaboration_type. destruct_world w.
  destruct (_use_redis self).
  - destruct chat_uuid as [c|]; exec; [|by eexists].
    destruct (r_collaboration_type0 !! c) eqn:Hc; exec; by eexists.
  - destruct (_collaboration_type0 !! chat_uuid) eqn:Hc; exec; by eexists.
Qed.

Lemma llm_chat_completion_reads (self : WiseAgentContext) (w : World) :
  ∃ stored, llm_chat_completion self w = (Val stored, w).
Proof.
  unfold llm_chat_completion. destruct (_use_redis self); exec; by eexists.
Qed.

Lemma bind_val {A B} (m : M A) (k : A → M B) (a : A) (w w' : World) :
  m w = (Val a, w') → bind m k w = k a w'.
Proof. intros Hm. unfold bind. by rewrite Hm. Qed.

Lemma get_conversation_history_if_needed_history_for
    (self : WiseAgent) (context : WiseAgentContext) (chat_id : option string)
    (t : option WiseAgentCollaborationType)
    (stored : gmap chat_key (list ChatCompletionMessageParam)) (w : World) :
  llm_chat_completion context w = (Val stored, w) →
  get_conversation_history_if_needed self context chat_id t w
    = (Val (history_for stored chat_id t), w).
Proof.
  intros Hs. unfold get_conversation_history_if_needed, history_for.
  destruct t as [[]|], (py_truthy chat_id); simpl; try reflexivity.
  all: by rewrite (bind_val _ _ _ _ _ Hs).
Qed.








(** An empty chat id counts as absent: the agent gets the empty list even
    though the chat is PHASED and has a stored history. *)
Example history_with_empty_chat_id :
  result_of (get_collaboration_type local_context (Some ""))
    phased_chat_with_empty_id = Val (Some PHASED) ∧
  result_of (llm_chat_completion local_context) phased_chat_with_empty_id
    = Val {[ Some "" := [{| role := "assistant"; content := "hello" |}] ]} ∧
  result_of
    (get_conversation_history_if_needed (quiet_agent "A") local_context
       (Some "") (Some PHASED)) phased_chat_with_empty_id = Val (Some []).
Proof. repeat split; vm_compute; reflexivity. Qed.

(** ** Sequential routing *)

Lemma py_index_None {A} `{EqDecision A} (x : A) (l : list A) :
  x ∉ l → py_index x l = None.
Proof.
  induction l as [|y l IH]; intros Hx; simpl; [done|].
  rewrite not_elem_of_cons in Hx. destruct Hx as [Hne Hx].
  rewrite decide_False by done. by rewrite IH.
Qed.

Lemma py_index_is_Some {A} `{EqDecision A} (x : A) (l : list A) :
  x ∈ l → is_Some (py_index x l).
Proof.
  induction l as [|y l IH]; intros Hx; simpl; [by apply elem_of_nil in Hx|].
  destruct (decide (x = y)); [by eexists|].
  apply elem_of_cons in Hx as [|Hx]; [done|].
  destruct (IH Hx) as [i ->]. by eexists.
Qed.

Lemma next_in_middle (before after : list string) (a next : string) :
  a ∉ before → next_in (before ++ a :: next :: after) a = Some next.
Proof.
  intros Ha. unfold next_in. rewrite py_index_first by done. simpl.
  rewrite lookup_app_r by lia.
  by replace (length before + 1 - length before) with 1 by lia.
Qed.

Lemma next_in_last (before : list string) (a : string) :
  a ∉ before → next_in (before ++ [a]) a = None.
Proof.
  intros Ha. unfold next_in. rewrite py_index_first by done. simpl.
  apply lookup_ge_None. rewrite length_app. simpl. lia.
Qed.

Lemma next_in_absent (agents_sequence : list string) (a : string) :
  a ∉ agents_sequence → next_in agents_sequence a = None.
Proof. intros Ha. unfold next_in. by rewrite py_index_None. Qed.

Lemma get_next_agent_in_sequence_next_in
    (self : WiseAgentContext) (chat_uuid : chat_key) (current_agent : string)
    (agents_sequence : list string) (w : World) :
  get_agents_sequence self chat_uuid w = (Val agents_sequence, w) →
  get_next_agent_in_sequence self chat_uuid current_agent w
    = (Val (next_in agents_sequence current_agent), w).
Proof.
  intros Hseq. unfold get_next_agent_in_sequence, next_in.
  rewrite (bind_val _ _ _ _ _ Hseq).
  destruct (decide (current_agent ∈ agents_sequence)) as [Hin|Hin].
  - rewrite py_in_true by done.
    destruct (py_index_is_Some _ _ Hin) as [i Hi]. rewrite Hi. exec.
    destruct (Nat.ltb_spec (i + 1) (length agents_sequence)) as [Hlt|Hge].
    + destruct (lookup_lt_is_Some_2 _ _ Hlt) as [next Hnext].
      rewrite Hnext. done.
    + by rewrite (lookup_ge_None_2 _ _ Hge).
  - rewrite py_in_false, py_index_None by done. done.
Qed.

(** The getters used for routing change nothing. *)
Lemma get_agents_sequence_reads
    (self : WiseAgentContext) (chat_uuid : chat_key) (w : World) :
  state_after (get_agents_sequence self chat_uuid) w = w.
Proof.
  unfold get_agents_sequence. destruct_world w.
  destruct (_use_redis self).
  - destruct chat_uuid; exec; done.
  - destruct (_agents_sequence0 !! chat_uuid) eqn:Hc; exec; done.
Qed.

Lemma get_route_response_to_reads
    (self : WiseAgentContext) (chat_uuid : chat_key) (w : World) :
  state_after (get_route_response_to self chat_uuid) w = w.
Proof.
  unfold get_route_response_to. destruct_world w.
  destruct (_use_redis self).
  - destruct chat_uuid; exec; done.
  - destruct (_route_response_to0 !! chat_uuid) eqn:Hc; exec; done.
Qed.

Lemma run_eq {A} (m : M A) (w : World) (a : A) :
  result_of m w = Val a → state_after m w = w → m w = (Val a, w).
Proof.
  unfold result_of, state_after. destruct (m w). simpl. by intros -> ->.
Qed.

(** Adding a participant and tracing never raise and leave the transport
    log alone. *)
Lemma add_participant_returns
    (self : WiseAgentContext) (agent_name : string) (w : World) :
  ∃ w1, add_participant self agent_name w = (Val tt, w1) ∧
        transport_log w1 = transport_log w.
Proof.
  unfold add_participant, participants. destruct_world w.
  destruct (_use_redis self); exec.
  - destruct r_participants0 as [|p ps]; exec; [by eexists|].
    destruct (py_in _ _); exec; by eexists.
  - destruct (py_in _ _); exec; by eexists.
Qed.

Lemma trace_returns (self : WiseAgentContext) (msg : WiseAgentMessage) (w : World) :
  ∃ w1, trace self msg w = (Val tt, w1) ∧ transport_log w1 = transport_log w.
Proof.
  unfold trace. destruct_world w. destruct (_use_redis self); exec; by eexists.
Qed.

(** Sending returns, and hands exactly one message to the transport. *)
Lemma send_request_logs
    (self : WiseAgent) (msg : WiseAgentMessage) (dest : string) (w : World) :
  ∃ w1, send_request self msg dest w = (Val tt, w1) ∧
        transport_log w1 = transport_log w ++
          [{| sent_on := RequestQueue; sent_message := stamp msg (wa_name self);
              sent_to := dest |}].
Proof.
  unfold send_request.
  destruct (get_or_create_context_returns
              (context_name (stamp msg (wa_name self))) w)
    as (context & w1 & Hctx & _ & _ & Hlog1 & _).
  rewrite (bind_val _ _ _ _ _ Hctx).
  destruct (add_participant_returns context (wa_name self) w1)
    as (w2 & Hadd & Hlog2).
  rewrite (bind_val _ _ _ _ _ Hadd).
  unfold transport_send at 1. unfold bind at 1. unfold update at 1.
  cbv beta iota.
  destruct (trace_returns context (stamp msg (wa_name self))
              (over world_transport_log
                 (λ l, l ++ [{| sent_on := RequestQueue;
                                sent_message := stamp msg (wa_name self);
                                sent_to := dest |}]) w2))
    as (w3 & Htrace & Hlog3).
  exists w3. split; [done|].
  rewrite Hlog3. simpl. by rewrite Hlog2, Hlog1.
Qed.

Lemma send_response_logs
    (self : WiseAgent) (msg : WiseAgentMessage) (dest : string) (w : World) :
  ∃ w1, send_response self msg dest w = (Val tt, w1) ∧
        transport_log w1 = transport_log w ++
          [{| sent_on := ResponseQueue; sent_message := stamp msg (wa_name self);
              sent_to := dest |}].
Proof.
  unfold send_response.
  destruct (get_or_create_context_returns
              (context_name (stamp msg (wa_name self))) w)
    as (context & w1 & Hctx & _ & _ & Hlog1 & _).
  rewrite (bind_val _ _ _ _ _ Hctx).
  destruct (add_participant_returns context (wa_name self) w1)
    as (w2 & Hadd & Hlog2).
  rewrite (bind_val _ _ _ _ _ Hadd).
  unfold transport_send at 1. unfold bind at 1. unfold update at 1.
  cbv beta iota.
  destruct (trace_returns context (stamp msg (wa_name self))
              (over world_transport_log
                 (λ l, l ++ [{| sent_on := ResponseQueue;
                                sent_message := stamp msg (wa_name self);
                                sent_to := dest |}]) w2))
    as (w3 & Htrace & Hlog3).
  exists w3. split; [done|].
  rewrite Hlog3. simpl. by rewrite Hlog2, Hlog1.
Qed.

(** C1.  On SEQUENTIAL collaboration, with a sequence and a route set for the
    chat and a non-empty response, [handle_response] returns [True] and hands
    the transport exactly one message carrying the response: a request for
    the agent that follows this one in the sequence when there is one, the
    response for the route [R] when this agent is last or is not in the
    sequence.  The position of an agent is that of its first occurrence.
    REQUEST and RESPONSE are the transport's [send_request] and
    [send_response]; the message itself is built without a type. *)
Theorem sequential_routing
    (self : WiseAgent) (context : WiseAgentContext) (request : WiseAgentMessage)
    (response : string) (agents_sequence : list string) (R : string) (w : World) :
  response ≠ "" →
  result_of (get_agents_sequence context request.(chat_id)) w
    = Val agents_sequence →
  result_of (get_route_response_to context request.(chat_id)) w
    = Val (Some R) →
  ∃ w1 on dest,
    handle_response self (Some response) request context (Some SEQUENTIAL) w
      = (Val true, w1) ∧
    transport_log w1 = transport_log w ++
      [{| sent_on := on; sent_message := routed self context request response;
          sent_to := dest |}] ∧
    (∀ before next after,
       agents_sequence = before ++ wa_name self :: next :: after →
       wa_name self ∉ before → on = RequestQueue ∧ dest = next) ∧
    (∀ before,
       agents_sequence = before ++ [wa_name self] →
       wa_name self ∉ before → on = ResponseQueue ∧ dest = R) ∧
    (wa_name self ∉ agents_sequence → on = ResponseQueue ∧ dest = R).
Proof.
  intros Hne Hseq Hroute.
  apply run_eq in Hseq; [|apply get_agents_sequence_reads].
  apply run_eq in Hroute; [|apply get_route_response_to_reads].
  pose proof (get_next_agent_in_sequence_next_in context request.(chat_id)
                (wa_name self) agents_sequence w Hseq) as Hnext.
  unfold handle_response.
  assert (py_truthy (Some response) = true) as ->.
  { simpl. apply negb_true_iff. by apply String.eqb_neq. }
  change (is_phased_or_chat (Some SEQUENTIAL)) with false.
  change (bool_decide (Some SEQUENTIAL = Some SEQUENTIAL)) with true.
  cbv beta iota zeta. unfold bind at 1. unfold bind at 1.
  rewrite Hnext.
  destruct (next_in agents_sequence (wa_name self)) as [next_agent|] eqn:Hn.
  - destruct (send_request_logs self
                {| message := response; message_type := None;
                   sender := wa_name self; context_name := name context;
                   chat_id := request.(chat_id) |} next_agent w)
      as (w1 & Hsend & Hlog).
    exists w1, RequestQueue, next_agent. simpl. rewrite Hsend.
    split; [done|]. split; [exact Hlog|]. split; [|split].
    + intros before next after -> Hb.
      rewrite next_in_middle in Hn by done. by injection Hn as ->.
    + intros before -> Hb. rewrite next_in_last in Hn by done. discriminate.
    + intros Hb. rewrite next_in_absent in Hn by done. discriminate.
  - destruct (send_response_logs self
                {| message := response; message_type := None;
                   sender := wa_name self; context_name := name context;
                   chat_id := request.(chat_id) |} R w)
      as (w1 & Hsend & Hlog).
    exists w1, ResponseQueue, R. simpl.
    unfold bind at 1. rewrite Hroute. simpl.
    unfold bind at 1. simpl.
    unfold bind at 1. rewrite Hroute. simpl.
    unfold bind at 1. simpl. rewrite Hsend.
    split; [done|]. split; [exact Hlog|]. split; [|done].
    intros before next after -> Hb.
    rewrite next_in_middle in Hn by done. discriminate.
Qed.

Lemma sequential_routing_witness :
  ∃ w1 on dest,
    handle_response (quiet_agent "B") (Some "answer") (request_from "A")
      local_context (Some SEQUENTIAL) sequence_ABC = (Val true, w1) ∧
    transport_log w1 = transport_log sequence_ABC ++
      [{| sent_on := on;
          sent_message :=
            routed (quiet_agent "B") local_context (request_from "A") "answer";
          sent_to := dest |}] ∧
    (∀ before next after,
       ["A"; "B"; "C"] = before ++ wa_name (quiet_agent "B") :: next :: after →
       wa_name (quiet_agent "B") ∉ before → on = RequestQueue ∧ dest = next) ∧
    (∀ before,
       ["A"; "B"; "C"] = before ++ [wa_name (quiet_agent "B")] →
       wa_name (quiet_agent "B") ∉ before → on = ResponseQueue ∧ dest = "R") ∧
    (wa_name (quiet_agent "B") ∉ ["A"; "B"; "C"] →
     on = ResponseQueue ∧ dest = "R").
Proof.
  apply (sequential_routing (quiet_agent "B") local_context (request_from "A")
           "answer" ["A"; "B"; "C"] "R" sequence_ABC).
  - intros H. discriminate H.
  - reflexivity.
  - reflexivity.
Defined.

(** The four cases of the sequence A, B, C with route R, run through
    [handle_response]: what the transport is handed. *)
Example sequence_from_A :
  transport_log (state_after
    (handle_response (quiet_agent "A") (Some "answer") (request_from "R")
       local_context (Some SEQUENTIAL)) sequence_ABC)
  = [{| sent_on := RequestQueue;
        sent_message := {| message := "answer"; message_type := None;
                           sender := "A"; context_name := "default";
                           chat_id := Some "chat1" |};
        sent_to := "B" |}].
Proof. vm_compute. reflexivity. Qed.

Example sequence_from_B :
  transport_log (state_after
    (handle_response (quiet_agent "B") (Some "answer") (request_from "A")
       local_context (Some SEQUENTIAL)) sequence_ABC)
  = [{| sent_on := RequestQueue;
        sent_message := {| message := "answer"; message_type := None;
                           sender := "B"; context_name := "default";
                           chat_id := Some "chat1" |};
        sent_to := "C" |}].
Proof. vm_compute. reflexivity. Qed.

Example sequence_from_C :
  transport_log (state_after
    (handle_response (quiet_agent "C") (Some "answer") (request_from "B")
       local_context (Some SEQUENTIAL)) sequence_ABC)
  = [{| sent_on := ResponseQueue;
        sent_message := {| message := "answer"; message_type := None;
                           sender := "C"; context_name := "default";
                           chat_id := Some "chat1" |};
        sent_to := "R" |}].
Proof. vm_compute. reflexivity. Qed.

Example sequence_from_outsider :
  transport_log (state_after
    (handle_response (quiet_agent "D") (Some "answer") (request_from "B")
       local_context (Some SEQUENTIAL)) sequence_ABC)
  = [{| sent_on := ResponseQueue;
        sent_message := {| message := "answer"; message_type := None;
                           sender := "D"; context_name := "default";
                           chat_id := Some "chat1" |};
        sent_to := "R" |}].
Proof. vm_compute. reflexivity. Qed.

(** Without a route the last agent's response is not sent: building the log
    line raises [TypeError]. *)
Example sequence_without_route :
  result_of
    (set_agents_sequence local_context (Some "chat1") ["A"];;
     handle_response (quiet_agent "A") (Some "answer") (request_from "R")
       local_context (Some SEQUENTIAL))
    (initial_world default_config) = Raise TypeError.
Proof. vm_compute. reflexivity. Qed.

(** ** Phases *)

Lemma lists_items_eq (ls : list loc) (w : World) :
  lists_items ls w = (Val (items_in (heap w) <$> ls), w).
Proof.
  induction ls as [|l ls IH]; simpl; [done|].
  unfold bind at 1. unfold list_items at 1. unfold bind at 1.
  unfold read, ret. simpl. unfold bind at 1. rewrite IH. done.
Qed.

Lemma fmap_items_in_frame (h h' : list (list string)) (ls : list loc) :
  Forall (λ l, l < length h) ls →
  (∀ l, l < length h → h' !! l = h !! l) →
  items_in h' <$> ls = items_in h <$> ls.
Proof.
  intros Hv Hframe. apply list_fmap_ext. intros i l Hl.
  unfold items_in. rewrite Hframe; [done|].
  rewrite Forall_forall in Hv. apply Hv. by eapply list_elem_of_lookup_2.
Qed.

Lemma py_getitem_fmap {A B} (f : A → B) (l : list A) (i : Z) :
  py_getitem (f <$> l) i = f <$> py_getitem l i.
Proof.
  unfold py_getitem. rewrite length_fmap.
  repeat case_match; by rewrite ?list_lookup_fmap.
Qed.

Lemma py_getitem_valid {A} (P : A → Prop) (l : list A) (i : Z) (x : A) :
  Forall P l → py_getitem l i = Some x → P x.
Proof.
  intros Hall Hx. rewrite Forall_forall in Hall. apply Hall.
  unfold py_getitem in Hx.
  repeat case_match; try done; by eapply list_elem_of_lookup_2.
Qed.

(** C7.  After [set_agent_phase_assignments] and [set_current_phase] with
    a valid index, the required agents are the items of the chosen phase, held
    in a copy: in process a list object that did not exist before and that no
    phase refers to, on Redis a pickled value.  Removing an agent afterwards,
    whether it succeeds or raises, leaves every phase of the chat as it was,
    leaves every list object that existed before untouched, and changes no
    other part of the state; when the agent was required, the required agents
    are the former ones without its first occurrence. *)
Theorem set_current_phase_copies
    (self : WiseAgentContext) (chat_uuid : chat_key) (phases : list loc)
    (phase : Z) (chosen : loc) (w : World) :
  addressable self chat_uuid →
  Forall (λ l, l < length (heap w)) phases →
  py_getitem phases phase = Some chosen →
  ∃ w1,
    (set_agent_phase_assignments self chat_uuid phases;;
     set_current_phase self chat_uuid phase) w = (Val tt, w1) ∧
    get_required_agents_for_current_phase self chat_uuid w1
      = (Val (items_in (heap w) chosen), w1) ∧
    get_agent_phase_assignments self chat_uuid w1
      = (Val (items_in (heap w) <$> phases), w1) ∧
    (_use_redis self = false →
     _required_agents_for_current_phase (ctx_class w1) !! chat_uuid
       = Some (length (heap w)) ∧
     length (heap w) ∉ phases) ∧
    ∀ agent_name, ∃ r w2,
      remove_required_agent_for_current_phase self chat_uuid agent_name w1
        = (r, w2) ∧
      get_agent_phase_assignments self chat_uuid w2
        = (Val (items_in (heap w) <$> phases), w2) ∧
      (∀ l, l < length (heap w) → heap w2 !! l = heap w !! l) ∧
      changes_only_required_agents w1 w2 ∧
      (∀ rest, py_remove agent_name (items_in (heap w) chosen) = Some rest →
         r = Val tt ∧
         get_required_agents_for_current_phase self chat_uuid w2
           = (Val rest, w2)).
Proof.
  intros Haddr Hvalid Hget.
  pose proof (py_getitem_valid _ _ _ _ Hvalid Hget) as Hchosen.
  unfold set_agent_phase_assignments, set_current_phase,
    get_required_agents_for_current_phase, get_agent_phase_assignments,
    remove_required_agent_for_current_phase, changes_only_required_agents.
  unfold addressable in Haddr.
  destruct (_use_redis self) eqn:E.
  - destruct (Haddr eq_refl) as [c ->]. clear Haddr.
    destruct_world w. exec. rewrite lists_items_eq. exec.
    rewrite py_getitem_fmap, Hget. exec.
    eexists. split; [reflexivity|]. exec.
    split; [done|]. split; [done|]. split; [done|].
    intros agent_name.
    destruct (py_remove agent_name (items_in hp chosen)) as [rest|] eqn:Hrm;
      exec.
    + destruct rest as [|a rest]; exec.
      * do 2 eexists. split; [reflexivity|]. exec.
        split; [done|]. split; [done|].
        split; [repeat split; by eexists (delete c)|].
        intros ? [= <-]. done.
      * do 2 eexists. split; [reflexivity|]. exec.
        split; [done|]. split; [done|].
        split; [repeat split; by eexists (insert c _)|].
        intros ? [= <-]. done.
    + do 2 eexists. split; [reflexivity|]. exec.
      split; [done|]. split; [done|].
      split; [repeat split; by exists id|]. done.
  - clear Haddr. destruct_world w. exec. rewrite Hget. exec.
    eexists. split; [reflexivity|]. exec.
    rewrite list_lookup_middle by done. simpl. split; [done|].
    rewrite lists_items_eq. simpl.
    assert (∀ x, items_in (hp ++ [x]) <$> phases = items_in hp <$> phases)
      as Hframe.
    { intros x. apply fmap_items_in_frame; [done|].
      intros l Hl. by rewrite lookup_app_l. }
    rewrite Hframe. split; [done|].
    split.
    { intros _. split; [done|]. intros Hin.
      rewrite Forall_forall in Hvalid. apply Hvalid in Hin. lia. }
    intros agent_name. fold (items_in hp chosen).
    destruct (py_remove agent_name (items_in hp chosen)) as [rest|] eqn:Hrm;
      exec.
    + do 2 eexists. split; [reflexivity|]. exec.
      rewrite lists_items_eq. simpl.
      assert (∀ l, l < length hp →
                <[length hp:=rest]> (hp ++ [items_in hp chosen]) !! l
                = hp !! l) as Hold.
      { intros l Hl. rewrite list_lookup_insert_ne by lia.
        by rewrite lookup_app_l. }
      rewrite (fmap_items_in_frame hp _ phases Hvalid Hold).
      split; [done|]. split; [done|].
      split; [repeat split; by exists id|].
      intros ? [= <-]. split; [done|].
      rewrite list_lookup_insert_eq; [done|].
      rewrite length_app. simpl. lia.
    + do 2 eexists. split; [reflexivity|]. exec.
      rewrite lists_items_eq. simpl. rewrite Hframe.
      split; [done|].
      split; [intros l Hl; by rewrite lookup_app_l|].
      split; [repeat split; by exists id|]. done.
Qed.

Lemma set_current_phase_copies_witness :
  ∃ w1,
    (set_agent_phase_assignments local_context (Some "chat1") [0; 1];;
     set_current_phase local_context (Some "chat1") 0) two_phase_lists
      = (Val tt, w1) ∧
    get_required_agents_for_current_phase local_context (Some "chat1") w1
      = (Val (items_in (heap two_phase_lists) 0), w1) ∧
    get_agent_phase_assignments local_context (Some "chat1") w1
      = (Val (items_in (heap two_phase_lists) <$> [0; 1]), w1) ∧
    (_use_redis local_context = false →
     _required_agents_for_current_phase (ctx_class w1) !! Some "chat1"
       = Some (length (heap two_phase_lists)) ∧
     length (heap two_phase_lists) ∉ [0; 1]) ∧
    ∀ agent_name, ∃ r w2,
      remove_required_agent_for_current_phase local_context (Some "chat1")
        agent_name w1 = (r, w2) ∧
      get_agent_phase_assignments local_context (Some "chat1") w2
        = (Val (items_in (heap two_phase_lists) <$> [0; 1]), w2) ∧
      (∀ l, l < length (heap two_phase_lists) →
         heap w2 !! l = heap two_phase_lists !! l) ∧
      changes_only_required_agents w1 w2 ∧
      (∀ rest,
         py_remove agent_name (items_in (heap two_phase_lists) 0) = Some rest →
         r = Val tt ∧
         get_required_agents_for_current_phase local_context (Some "chat1") w2
           = (Val rest, w2)).
Proof.
  apply (set_current_phase_copies local_context (Some "chat1") [0; 1] 0 0
           two_phase_lists).
  - intros H. discriminate H.
  - repeat constructor.
  - reflexivity.
Defined.

(** ** The phased protocol *)

Lemma lookup_app_plus {A} (h l : list A) (n : nat) :
  (h ++ l) !! (length h + n) = l !! n.
Proof.
  rewrite lookup_app_r by lia. f_equal. lia.
Qed.

Ltac heap_norm :=
  repeat first
  [ rewrite <- app_assoc
  | rewrite length_app
  | rewrite insert_app_r
  | rewrite list_lookup_middle by reflexivity
  | rewrite lookup_app_plus
  | progress simpl ].

Ltac run := repeat (exec; heap_norm).

(** The protocol on the phases [[A, B], [C]], on either backend.  Setting
    phase 0 requires A and B; once both are removed nothing is required; the
    next phase is [[C]] and becomes current; asking again returns [None] and
    changes nothing.  The backends differ in one point: once A and B are
    removed, Redis has no field for the chat id, whereas the in-process map
    still has the key, with an empty list. *)
Lemma phased_protocol
    (self : WiseAgentContext) (chat_uuid : chat_key) (A B C : string) (w : World) :
  addressable self chat_uuid →
  ∃ w1 w2 w3,
    start_phases self chat_uuid A B C w = (Val tt, w1) ∧
    get_required_agents_for_current_phase self chat_uuid w1
      = (Val [A; B], w1) ∧
    finish_first_phase self chat_uuid A B w1 = (Val tt, w2) ∧
    get_required_agents_for_current_phase self chat_uuid w2 = (Val [], w2) ∧
    required_agents self chat_uuid w2
      = (if _use_redis self then None else Some []) ∧
    get_agents_for_next_phase self chat_uuid w2 = (Val (Some [C]), w3) ∧
    get_current_phase self chat_uuid w3 = (Val (Some 1%Z), w3) ∧
    get_agents_for_next_phase self chat_uuid w3 = (Val None, w3).
Proof.
  intros Haddr. unfold addressable in Haddr.
  unfold start_phases, finish_first_phase, required_agents, items_in,
    get_agents_for_next_phase, set_agent_phase_assignments, set_current_phase,
    get_required_agents_for_current_phase, get_agent_phase_assignments,
    get_current_phase, remove_required_agent_for_current_phase.
  destruct (_use_redis self) eqn:E.
  - destruct (Haddr eq_refl) as [c ->]. clear Haddr.
    destruct_world w. do 3 eexists.
    split; [run; reflexivity|].
    split; [run; reflexivity|].
    split; [run; reflexivity|].
    split; [run; reflexivity|].
    split; [run; reflexivity|].
    split; [run; reflexivity|].
    split; [run; reflexivity|].
    run. reflexivity.
  - clear Haddr. destruct_world w. do 3 eexists.
    split; [run; reflexivity|].
    split; [run; reflexivity|].
    split; [run; reflexivity|].
    split; [run; reflexivity|].
    split; [run; reflexivity|].
    split; [run; reflexivity|].
    split; [run; reflexivity|].
    run. reflexivity.
Qed.

(** C2, on the failing input: the in-process backend, phases [[A, B], [C]],
    phase 0 set, then A and B removed.  The key of the chat is still in
    [_required_agents_for_current_phase], bound to a list object that is now
    empty; the same calls on Redis delete the field. *)
Theorem required_agents_key_not_deleted :
  _required_agents_for_current_phase (ctx_class first_phase_done_in_process)
    !! Some "chat1" = Some 2 ∧
  heap first_phase_done_in_process !! 2 = Some [] ∧
  r_required_agents_for_current_phase (redis first_phase_done_on_redis)
    !! "chat1" = None.
Proof. repeat split; vm_compute; reflexivity. Qed.

(** * Further properties *)

(** ** More symbolic execution *)

Ltac split_match :=
  match goal with
  | |- context [match ?x with _ => _ end] =>
      lazymatch x with
      | context [match _ with _ => _ end] => fail
      | _ => destruct x eqn:?
      end
  end.

Ltac unfold_context :=
  unfold perform, append_chat_completion, append_required_tool_call,
    remove_required_tool_call, append_available_tool_in_chat,
    set_agents_sequence, set_route_response_to, set_agent_phase_assignments,
    set_current_phase, get_agents_for_next_phase,
    remove_required_agent_for_current_phase, add_query,
    set_collaboration_type, get_current_phase, get_agent_phase_assignments,
    get_required_agents_for_current_phase, get_required_tool_calls,
    get_available_tools_in_chat, get_agents_sequence, get_route_response_to,
    get_queries, get_current_query, get_collaboration_type,
    llm_chat_completion.

Ltac crush :=
  repeat (try progress unfold_context; exec; rewrite ?lists_items_eq;
          try split_match).

(** ** No leakage between chats *)

(** A call on a chat id and what it leaves alone. *)
Lemma perform_frame
    (self : WiseAgentContext) (chat_uuid other : chat_key) (c : string)
    (m : mutation) (w : World) :
  (chat_uuid ≠ other →
   entries_in_process other (state_after (perform self chat_uuid m) w)
     = entries_in_process other w) ∧
  (chat_uuid ≠ Some c →
   entries_on_redis c (state_after (perform self chat_uuid m) w)
     = entries_on_redis c w) ∧
  bystanders (state_after (perform self chat_uuid m) w) = bystanders w ∧
  (∀ l items,
     heap w !! l = Some items →
     _required_agents_for_current_phase (ctx_class w) !! chat_uuid ≠ Some l →
     heap (state_after (perform self chat_uuid m) w) !! l = Some items).
Proof.
  unfold entries_in_process, entries_on_redis, bystanders.
  destruct m; destruct_world w.
  all: split; [intros Hne|split; [intros Hne|split; [|intros l items Hl Hne]]].
  all: crush; try done.
  all: try (by apply lookup_app_l_Some).
  all: try (rewrite list_lookup_insert_ne by congruence; done).
Qed.

(** X1.  A call on one chat id, whether it returns or raises, leaves what
    both stores hold for every other chat id as it was, and touches neither
    the participants, the traces, the registry nor the transport.  On the
    heap it can only change the list of required agents of its own chat:
    every other list object keeps its items. *)
Theorem other_chats_untouched
    (self : WiseAgentContext) (chat_uuid other : chat_key) (c : string)
    (m : mutation) (w : World) :
  (chat_uuid ≠ other →
   entries_in_process other (state_after (perform self chat_uuid m) w)
     = entries_in_process other w) ∧
  (chat_uuid ≠ Some c →
   entries_on_redis c (state_after (perform self chat_uuid m) w)
     = entries_on_redis c w) ∧
  bystanders (state_after (perform self chat_uuid m) w) = bystanders w ∧
  (∀ l items,
     heap w !! l = Some items →
     _required_agents_for_current_phase (ctx_class w) !! chat_uuid ≠ Some l →
     heap (state_after (perform self chat_uuid m) w) !! l = Some items).
Proof. apply perform_frame. Qed.

Lemma other_chats_untouched_witness :
  entries_in_process (Some "chat1")
    (state_after (perform local_context (Some "chat2") (Set_current_phase 3))
       sequence_ABC)
    = entries_in_process (Some "chat1") sequence_ABC ∧
  entries_on_redis "chat1"
    (state_after (perform redis_context (Some "chat2") (Add_query "why"))
       sequence_ABC)
    = entries_on_redis "chat1" sequence_ABC ∧
  heap (state_after
          (perform local_context (Some "chat1")
             (Remove_required_agent_for_current_phase "A")) two_phase_lists)
    !! 0 = Some ["A"; "B"].
Proof.
  destruct (other_chats_untouched local_context (Some "chat2") (Some "chat1")
              "chat1" (Set_current_phase 3) sequence_ABC) as (H1 & _).
  destruct (other_chats_untouched redis_context (Some "chat2") (Some "chat1")
              "chat1" (Add_query "why") sequence_ABC) as (_ & H2 & _).
  destruct (other_chats_untouched local_context (Some "chat1") (Some "chat1")
              "chat1" (Remove_required_agent_for_current_phase "A")
              two_phase_lists) as (_ & _ & _ & H3).
  split; [apply H1; intros H; discriminate H|].
  split; [apply H2; intros H; discriminate H|].
  apply H3; [reflexivity|]. intros H. discriminate H.
Defined.

Arguments py_getitem : simpl never.

(** ** The history of a chat *)

Lemma llm_chat_completion_stored
    (self : WiseAgentContext) (chat_uuid : chat_key) (w : World) :
  addressable self chat_uuid →
  ∃ h, llm_chat_completion self w = (Val h, w) ∧
       h !! chat_uuid = stored_history self chat_uuid w.
Proof.
  unfold addressable, llm_chat_completion, stored_history. intros Haddr.
  destruct (_use_redis self).
  - destruct (Haddr eq_refl) as [c ->]. exec. eexists. split; [done|].
    by rewrite lookup_kmap by apply _.
  - exec. by eexists.
Qed.

Lemma append_chat_completion_stored
    (self : WiseAgentContext) (chat_uuid : chat_key)
    (messages : ChatCompletionMessageParam) (w : World) :
  addressable self chat_uuid →
  ∃ w1, append_chat_completion self chat_uuid messages w = (Val tt, w1) ∧
        stored_history self chat_uuid w1
          = Some (default [] (stored_history self chat_uuid w) ++ [messages]).
Proof.
  unfold addressable, stored_history. intros Haddr.
  destruct (_use_redis self) eqn:E.
  - destruct (Haddr eq_refl) as [c ->]. destruct_world w.
    unfold append_chat_completion. rewrite E.
    crush; eexists; split; try done; crush; done.
  - destruct_world w. unfold append_chat_completion. rewrite E.
    crush; eexists; split; try done; crush; done.
Qed.

(** X2.  Appending messages to a chat one after the other always returns,
    and the history the context then gives for the chat is the one it gave
    before followed by the messages, in order; the chat has a history as soon
    as one message was appended.  This holds on both backends, for any chat
    id the backend can address. *)
Theorem chat_history_round_trip
    (self : WiseAgentContext) (chat_uuid : chat_key)
    (msgs : list ChatCompletionMessageParam) (w : World) :
  addressable self chat_uuid →
  ∃ before after w1,
    llm_chat_completion self w = (Val before, w) ∧
    append_chat_completions self chat_uuid msgs w = (Val tt, w1) ∧
    llm_chat_completion self w1 = (Val after, w1) ∧
    default [] (after !! chat_uuid) = default [] (before !! chat_uuid) ++ msgs ∧
    (msgs ≠ [] → is_Some (after !! chat_uuid)).
Proof.
  intros Haddr.
  destruct (llm_chat_completion_stored self chat_uuid w Haddr)
    as (before & Hb & Hbs).
  exists before.
  cut (∃ w1, append_chat_completions self chat_uuid msgs w = (Val tt, w1) ∧
         default [] (stored_history self chat_uuid w1)
           = default [] (stored_history self chat_uuid w) ++ msgs ∧
         (msgs ≠ [] → is_Some (stored_history self chat_uuid w1))).
  { intros (w1 & Hrun & Hd & Hs).
    destruct (llm_chat_completion_stored self chat_uuid w1 Haddr)
      as (after & Ha & Has).
    exists after, w1. rewrite Has, Hbs. done. }
  clear before Hb Hbs. revert w.
  induction msgs as [|m msgs IH]; intros w; simpl.
  - exists w. rewrite app_nil_r. done.
  - destruct (append_chat_completion_stored self chat_uuid m w Haddr)
      as (w1 & Hstep & Hs1).
    destruct (IH w1) as (w2 & Hrun & Hd & _).
    exists w2. rewrite (bind_val _ _ _ _ _ Hstep). split; [done|].
    rewrite Hd, Hs1. simpl. rewrite <- app_assoc. split; [done|].
    intros _. destruct (stored_history self chat_uuid w2) eqn:Hw2; [by eexists|].
    simpl in Hd. rewrite Hs1 in Hd. simpl in Hd.
    by destruct (default [] (stored_history self chat_uuid w)).
Qed.

Lemma chat_history_round_trip_witness :
  ∃ before after w1,
    llm_chat_completion redis_context (initial_world redis_config)
      = (Val before, initial_world redis_config) ∧
    append_chat_completions redis_context (Some "chat1") two_messages
      (initial_world redis_config) = (Val tt, w1) ∧
    llm_chat_completion redis_context w1 = (Val after, w1) ∧
    default [] (after !! Some "chat1")
      = default [] (before !! Some "chat1") ++ two_messages ∧
    (two_messages ≠ [] → is_Some (after !! Some "chat1")).
Proof.
  apply (chat_history_round_trip redis_context (Some "chat1") two_messages
           (initial_world redis_config)).
  intros _. exists "chat1". reflexivity.
Defined.

(** ** What is set is what is read *)

(** X3.  On both backends, for a chat id the backend can address: the
    sequence, the route and the collaboration type read back right after
    being set are the ones that were set, whatever the chat held before; and
    the tools available in a chat after one more was appended are the former
    ones followed by it. *)
Theorem what_is_set_is_read
    (self : WiseAgentContext) (chat_uuid : chat_key) (w : World) :
  addressable self chat_uuid →
  (∀ agents_sequence,
     result_of (set_agents_sequence self chat_uuid agents_sequence;;
                get_agents_sequence self chat_uuid) w = Val agents_sequence) ∧
  (∀ agent,
     result_of (set_route_response_to self chat_uuid agent;;
                get_route_response_to self chat_uuid) w = Val (Some agent)) ∧
  (∀ t,
     result_of (set_collaboration_type self chat_uuid t;;
                get_collaboration_type self chat_uuid) w = Val (Some t)) ∧
  (∀ tools, ∃ available,
     result_of (get_available_tools_in_chat self chat_uuid) w = Val available ∧
     result_of (append_available_tool_in_chat self chat_uuid tools;;
                get_available_tools_in_chat self chat_uuid) w
       = Val (available ++ [tools])).
Proof.
  unfold addressable. intros Haddr. unfold_context.
  destruct (_use_redis self) eqn:E.
  - destruct (Haddr eq_refl) as [c ->]. destruct_world w.
    split; [|split; [|split]]; intros.
    1-3: crush; done.
    crush; eexists; (split; [reflexivity|]); crush; done.
  - destruct_world w.
    split; [|split; [|split]]; intros.
    1-3: crush; done.
    crush; eexists; (split; [reflexivity|]); crush; done.
Qed.

Lemma what_is_set_is_read_witness :
  result_of (set_agents_sequence redis_context (Some "chat1") ["A"; "B"];;
             get_agents_sequence redis_context (Some "chat1")) sequence_ABC
    = Val ["A"; "B"] ∧
  result_of (set_route_response_to local_context (Some "chat1") "S";;
             get_route_response_to local_context (Some "chat1")) sequence_ABC
    = Val (Some "S") ∧
  result_of (set_collaboration_type local_context None CHAT;;
             get_collaboration_type local_context None) sequence_ABC
    = Val (Some CHAT).
Proof.
  split; [|split].
  - apply (what_is_set_is_read redis_context (Some "chat1") sequence_ABC).
    intros _. exists "chat1". reflexivity.
  - apply (what_is_set_is_read local_context (Some "chat1") sequence_ABC).
    intros H. discriminate H.
  - apply (what_is_set_is_read local_context None sequence_ABC).
    intros H. discriminate H.
Defined.

(** ** Queries *)

Lemma py_getitem_last {A} (l : list A) (x : A) :
  py_getitem (l ++ [x]) (-1) = Some x.
Proof.
  unfold py_getitem. rewrite length_app. simpl.
  destruct (Z.leb_spec 0 (-1)) as [?|_]; [lia|].
  destruct (Z.leb_spec (- Z.of_nat (length l + 1)) (-1)) as [_|?]; [|lia].
  replace (Z.to_nat (Z.of_nat (length l + 1) + -1)) with (length l) by lia.
  by rewrite list_lookup_middle.
Qed.



(** X5.  The current query of a chat is the last of its queries, and there
    is none when the chat has no query; reading it changes nothing.  On Redis
    this needs the stored list not to be empty. *)
Theorem current_query_is_last
    (self : WiseAgentContext) (chat_uuid : chat_key) (w : World) :
  addressable self chat_uuid →
  (_use_redis self = true →
   ∀ c, chat_uuid = Some c → r_queries (redis w) !! c ≠ Some []) →
  ∃ queries,
    get_queries self chat_uuid w = (Val queries, w) ∧
    get_current_query self chat_uuid w = (Val (last queries), w).
Proof.
  unfold addressable. intros Haddr Hne.
  unfold get_queries, get_current_query.
  destruct (_use_redis self) eqn:E.
  - destruct (Haddr eq_refl) as [c ->]. specialize (Hne eq_refl c eq_refl).
    destruct (r_queries (redis w) !! c) as [l|] eqn:Hl; destruct_world w;
      exec; [|by eexists].
    destruct l as [|x l _] using rev_ind; [done|].
    rewrite py_getitem_last. exec. eexists. split; [done|].
    by rewrite last_snoc.
  - destruct (_queries (ctx_class w) !! chat_uuid) as [l|] eqn:Hl;
      destruct_world w; exec; [|by eexists].
    destruct l as [|x l _] using rev_ind; exec; [by eexists|].
    destruct (l ++ [x]) eqn:Hlx; [by destruct l|]. rewrite <- Hlx.
    rewrite py_getitem_last. exec. eexists. split; [done|].
    by rewrite last_snoc.
Qed.

Lemma current_query_is_last_witness :
  ∃ queries,
    get_queries redis_context (Some "chat1") two_queries_on_redis
      = (Val queries, two_queries_on_redis) ∧
    get_current_query redis_context (Some "chat1") two_queries_on_redis
      = (Val (last queries), two_queries_on_redis).
Proof.
  apply (current_query_is_last redis_context (Some "chat1")
           two_queries_on_redis).
  - intros _. exists "chat1". reflexivity.
  - intros _ c Hc. injection Hc as <-. vm_compute. intros H. discriminate H.
Defined.

(** ** Pending tool calls, in general *)

(** X6.  The pending tool calls of a chat behave as a list: a call appended
    comes last, whatever was pending, and removing a pending name takes out
    its first occurrence and leaves no key behind when nothing else is
    pending.  On Redis this is what the server holds, provided the class-level
    map has no entry for the chat id. *)
Theorem required_tool_calls_are_a_list
    (self : WiseAgentContext) (chat_uuid : chat_key) (tool_name : string)
    (w : World) :
  addressable self chat_uuid →
  (_use_redis self = true →
   _llm_required_tool_call (ctx_class w) !! chat_uuid = None) →
  ∃ pending w1,
    get_required_tool_calls self chat_uuid w = (Val pending, w) ∧
    append_required_tool_call self chat_uuid tool_name w = (Val tt, w1) ∧
    get_required_tool_calls self chat_uuid w1
      = (Val (pending ++ [tool_name]), w1) ∧
    (∀ rest, py_remove tool_name pending = Some rest →
       ∃ w2, remove_required_tool_call self chat_uuid tool_name w
               = (Val tt, w2) ∧
             get_required_tool_calls self chat_uuid w2 = (Val rest, w2) ∧
             pending_tool_calls self chat_uuid w2
               = (match rest with [] => None | _ :: _ => Some rest end)).
Proof.
  unfold addressable, pending_tool_calls. intros Haddr Hlocal.
  unfold get_required_tool_calls, append_required_tool_call,
    remove_required_tool_call.
  destruct (_use_redis self) eqn:E.
  - destruct (Haddr eq_refl) as [c ->]. specialize (Hlocal eq_refl).
    destruct (r_llm_required_tool_call (redis w) !! c) as [l|] eqn:Hl;
      destruct_world w; exec.
    all: do 2 eexists; split; [reflexivity|]; split; [reflexivity|].
    all: split; [exec; done|]; intros rest Hrm; try done.
    rewrite Hrm.
    destruct rest; exec; eexists; split; try reflexivity; exec; done.
  - clear Hlocal.
    destruct (_llm_required_tool_call (ctx_class w) !! chat_uuid)
      as [l|] eqn:Hl; destruct_world w; exec.
    all: do 2 eexists; split; [reflexivity|]; split; [reflexivity|].
    all: split; [exec; done|]; intros rest Hrm; try done.
    rewrite Hrm.
    destruct rest; exec; eexists; split; try reflexivity; exec; done.
Qed.

Lemma required_tool_calls_are_a_list_witness :
  ∃ pending w1,
    get_required_tool_calls local_context (Some "chat1") one_pending_tool_call
      = (Val pending, one_pending_tool_call) ∧
    append_required_tool_call local_context (Some "chat1") "toolY"
      one_pending_tool_call = (Val tt, w1) ∧
    get_required_tool_calls local_context (Some "chat1") w1
      = (Val (pending ++ ["toolY"]), w1) ∧
    (∀ rest, py_remove "toolY" pending = Some rest →
       ∃ w2, remove_required_tool_call local_context (Some "chat1") "toolY"
               one_pending_tool_call = (Val tt, w2) ∧
             get_required_tool_calls local_context (Some "chat1") w2
               = (Val rest, w2) ∧
             pending_tool_calls local_context (Some "chat1") w2
               = (match rest with [] => None | _ :: _ => Some rest end)).
Proof.
  apply (required_tool_calls_are_a_list local_context (Some "chat1") "toolY"
           one_pending_tool_call).
  - intros H. discriminate H.
  - intros H. discriminate H.
Defined.

(** ** Phases, in general *)

(** X7.  Asking for the next phase of a chat that has no current phase
    raises [TypeError], from [current_phase + 1], and changes nothing. *)
Theorem next_phase_without_current_phase
    (self : WiseAgentContext) (chat_uuid : chat_key) (w : World) :
  result_of (get_current_phase self chat_uuid) w = Val None →
  get_agents_for_next_phase self chat_uuid w = (Raise TypeError, w).
Proof.
  unfold get_agents_for_next_phase, get_current_phase. intros H.
  destruct (_use_redis self).
  - destruct chat_uuid as [c|]; [|done].
    destruct (r_current_phase (redis w) !! c) eqn:Hc; destruct_world w;
      revert H; exec; done.
  - destruct (_current_phase (ctx_class w) !! chat_uuid) eqn:Hc;
      destruct_world w; revert H; exec; done.
Qed.

Lemma next_phase_without_current_phase_witness :
  get_agents_for_next_phase local_context (Some "chat1") phases_assigned
    = (Raise TypeError, phases_assigned).
Proof.
  apply (next_phase_without_current_phase local_context (Some "chat1")
           phases_assigned).
  reflexivity.
Defined.

(** X8.  [set_current_phase] with an index that is out of the range of the
    chat's phases raises [IndexError], or [KeyError] in process when the chat
    has no phases at all.  The two backends differ in what is left behind: the
    Redis server is untouched, while the in-process context has already
    recorded the number as the current phase. *)
Theorem set_current_phase_failure
    (self : WiseAgentContext) (chat_uuid : chat_key) (phase : Z)
    (phases : list (list string)) (w : World) :
  addressable self chat_uuid →
  result_of (get_agent_phase_assignments self chat_uuid) w = Val phases →
  py_getitem phases phase = None →
  ∃ e w1,
    set_current_phase self chat_uuid phase w = (Raise e, w1) ∧
    (e = KeyError ∨ e = IndexError) ∧
    (_use_redis self = true → w1 = w) ∧
    (_use_redis self = false →
     w1 = over cls_current_phase (insert chat_uuid phase) w).
Proof.
  unfold addressable. intros Haddr Hph Hout.
  unfold set_current_phase, get_agent_phase_assignments in *.
  destruct (_use_redis self) eqn:E.
  - destruct (Haddr eq_refl) as [c ->].
    destruct (r_agent_phase_assignments (redis w) !! c) as [l|] eqn:Hl;
      destruct_world w; revert Hph; exec; intros [= <-].
    all: simpl in Hout; rewrite Hout; exec; do 2 eexists.
    all: split; [reflexivity|]; split; [by right|]; done.
  - destruct (_agent_phase_assignments (ctx_class w) !! chat_uuid)
      as [l|] eqn:Hl;
      destruct_world w; revert Hph; exec; rewrite ?lists_items_eq; exec;
      intros [= <-].
    + rewrite py_getitem_fmap in Hout.
      destruct (py_getitem l phase); [done|]. exec.
      do 2 eexists. split; [reflexivity|]. split; [by right|]. done.
    + do 2 eexists. split; [reflexivity|]. split; [by left|]. done.
Qed.

Lemma set_current_phase_failure_witness :
  ∃ e w1,
    set_current_phase local_context (Some "chat1") 2 phases_assigned
      = (Raise e, w1) ∧
    (e = KeyError ∨ e = IndexError) ∧
    (_use_redis local_context = true → w1 = phases_assigned) ∧
    (_use_redis local_context = false →
     w1 = over cls_current_phase (insert (Some "chat1") 2%Z) phases_assigned).
Proof.
  apply (set_current_phase_failure local_context (Some "chat1") 2
           [["A"; "B"]; ["C"]] phases_assigned).
  - intros H. discriminate H.
  - reflexivity.
  - reflexivity.
Defined.

(** X9.  [get_agents_for_next_phase] moves a chat on by exactly one phase.
    When the current phase is the last one it returns [None] and changes
    nothing.  Otherwise it returns the agents of the next phase; afterwards
    that phase is the current one, its agents are the required agents, and
    the phases themselves are as before. *)
Theorem next_phase_advances_by_one
    (self : WiseAgentContext) (chat_uuid : chat_key) (p : Z)
    (phases : list (list string)) (w : World) :
  addressable self chat_uuid →
  result_of (get_current_phase self chat_uuid) w = Val (Some p) →
  result_of (get_agent_phase_assignments self chat_uuid) w = Val phases →
  (_use_redis self = false →
   ∀ refs, _agent_phase_assignments (ctx_class w) !! chat_uuid = Some refs →
           Forall (λ l, l < length (heap w)) refs) →
  ((Z.of_nat (length phases) ≤ p + 1)%Z →
   get_agents_for_next_phase self chat_uuid w = (Val None, w)) ∧
  (∀ next_agents,
     (p + 1 < Z.of_nat (length phases))%Z →
     py_getitem phases (p + 1) = Some next_agents →
     ∃ w1,
       get_agents_for_next_phase self chat_uuid w
         = (Val (Some next_agents), w1) ∧
       get_current_phase self chat_uuid w1 = (Val (Some (p + 1)%Z), w1) ∧
       get_required_agents_for_current_phase self chat_uuid w1
         = (Val next_agents, w1) ∧
       get_agent_phase_assignments self chat_uuid w1 = (Val phases, w1)).
Proof.
  unfold addressable. intros Haddr Hp Hph Hvalid.
  unfold get_agents_for_next_phase, set_current_phase, get_current_phase,
    get_agent_phase_assignments, get_required_agents_for_current_phase in *.
  destruct (_use_redis self) eqn:E.
  - destruct (Haddr eq_refl) as [c ->]. clear Hvalid.
    destruct (r_current_phase (redis w) !! c) as [p'|] eqn:Hc;
      destruct (r_agent_phase_assignments (redis w) !! c) as [l|] eqn:Hl;
      destruct_world w; revert Hp Hph; exec; intros Hp Hph; try done.
    all: injection Hp as ->; injection Hph as <-.
    all: split; [intros Hge|intros next_agents Hlt Hget].
    + apply Z.ltb_ge in Hge. rewrite Hge. done.
    + apply Z.ltb_lt in Hlt. rewrite Hlt. exec. rewrite Hget. exec.
      rewrite Hget. exec.
      eexists. split; [reflexivity|]. exec. done.
    + apply Z.ltb_ge in Hge. simpl in Hge. rewrite Hge. done.
    + unfold py_getitem in Hget. simpl in Hget. by repeat case_match.
  - specialize (Hvalid eq_refl).
    destruct (_current_phase (ctx_class w) !! chat_uuid) as [p'|] eqn:Hc;
      destruct (_agent_phase_assignments (ctx_class w) !! chat_uuid)
        as [refs|] eqn:Hl;
      destruct_world w; revert Hp Hph; exec; rewrite ?lists_items_eq; exec;
      intros Hp Hph; try done.
    all: injection Hp as ->; injection Hph as <-.
    all: split; [intros Hge|intros next_agents Hlt Hget].
    + apply Z.ltb_ge in Hge. rewrite Hge. done.
    + apply Z.ltb_lt in Hlt. rewrite Hlt. exec.
      specialize (Hvalid _ eq_refl).
      rewrite py_getitem_fmap in Hget.
      destruct (py_getitem refs (p + 1)) as [r|] eqn:Hr; [|done].
      injection Hget as <-. exec. rewrite lists_items_eq. exec.
      match goal with
      | |- context [items_in (?h ++ [default [] (?h !! r)]) <$> refs] =>
          assert (items_in (h ++ [default [] (h !! r)]) <$> refs
                  = items_in h <$> refs) as Hframe
            by (apply fmap_items_in_frame; [done|];
                intros l' Hl'; by rewrite lookup_app_l)
      end.
      rewrite Hframe, py_getitem_fmap, Hr. exec.
      eexists. split; [reflexivity|]. exec.
      rewrite list_lookup_middle by done. exec.
      rewrite lists_items_eq. exec. rewrite Hframe. done.
    + apply Z.ltb_ge in Hge. simpl in Hge. rewrite Hge. done.
    + unfold py_getitem in Hget. simpl in Hget. by repeat case_match.
Qed.

Lemma next_phase_advances_by_one_witness :
  ∃ w1,
    get_agents_for_next_phase local_context (Some "chat1") first_phase_current
      = (Val (Some ["C"]), w1) ∧
    get_current_phase local_context (Some "chat1") w1 = (Val (Some 1%Z), w1) ∧
    get_required_agents_for_current_phase local_context (Some "chat1") w1
      = (Val ["C"], w1) ∧
    get_agent_phase_assignments local_context (Some "chat1") w1
      = (Val [["A"; "B"]; ["C"]], w1).
Proof.
  destruct (next_phase_advances_by_one local_context (Some "chat1") 0
              [["A"; "B"]; ["C"]] first_phase_current) as [_ Hnext].
  - intros H. discriminate H.
  - reflexivity.
  - reflexivity.
  - intros _ refs Hrefs. vm_compute in Hrefs. injection Hrefs as <-.
    repeat constructor.
  - apply Hnext; [reflexivity|reflexivity].
Defined.

(** X10.  The in-process context keeps the caller's phase lists themselves,
    the Redis context a pickled snapshot of them: when the caller removes an
    item from one of its lists after [set_agent_phase_assignments], the
    phases read back show the removal in process and not on Redis. *)
Theorem phase_lists_are_kept_in_process
    (self : WiseAgentContext) (chat_uuid : chat_key) (phases : list loc)
    (l : loc) (x : string) (rest : list string) (w : World) :
  addressable self chat_uuid →
  py_remove x (items_in (heap w) l) = Some rest →
  result_of
    (set_agent_phase_assignments self chat_uuid phases;;
     list_remove l x;;
     get_agent_phase_assignments self chat_uuid) w
  = Val (items_in (if _use_redis self then heap w else <[l := rest]> (heap w))
           <$> phases).
Proof.
  unfold addressable, items_in. intros Haddr Hrm.
  unfold set_agent_phase_assignments, get_agent_phase_assignments.
  destruct (_use_redis self) eqn:E.
  - destruct (Haddr eq_refl) as [c ->].
    destruct_world w. exec. rewrite lists_items_eq. exec. rewrite Hrm. exec.
    done.
  - destruct_world w. exec. rewrite Hrm. exec. rewrite lists_items_eq. done.
Qed.

Lemma phase_lists_are_kept_in_process_witness :
  result_of
    (set_agent_phase_assignments local_context (Some "chat1") [0; 1];;
     list_remove 0 "A";;
     get_agent_phase_assignments local_context (Some "chat1")) two_phase_lists
    = Val [["B"]; ["C"]] ∧
  result_of
    (set_agent_phase_assignments redis_context (Some "chat1") [0; 1];;
     list_remove 0 "A";;
     get_agent_phase_assignments redis_context (Some "chat1")) two_phase_lists
    = Val [["A"; "B"]; ["C"]].
Proof.
  split.
  - apply (phase_lists_are_kept_in_process local_context (Some "chat1") [0; 1]
             0 "A" ["B"] two_phase_lists).
    + intros H. discriminate H.
    + reflexivity.
  - apply (phase_lists_are_kept_in_process redis_context (Some "chat1") [0; 1]
             0 "A" ["B"] two_phase_lists).
    + intros _. exists "chat1". reflexivity.
    + reflexivity.
Defined.

(** ** The registry *)

(** X11.  [get_or_create_context] always returns a context, and returns the
    same one, changing nothing more, when called again: after the first call
    the registry holds the context under the name and [does_context_exist]
    is true.  A context that was registered is returned as it is and the
    state is untouched; otherwise the new context has the given name and the
    configuration of the registry. *)
Theorem get_or_create_context_once (context_name : string) (w : World) :
  ∃ context w1,
    get_or_create_context context_name w = (Val context, w1) ∧
    get_or_create_context context_name w1 = (Val context, w1) ∧
    does_context_exist context_name w1 = (Val true, w1) ∧
    registered_context context_name w1 = Some context ∧
    (registered_context context_name w = None →
     context = {| _name := context_name; _config := config (registry w) |}) ∧
    (∀ found, registered_context context_name w = Some found →
     context = found ∧ w1 = w).
Proof.
  unfold registered_context, get_or_create_context, does_context_exist,
    __init__, register_context, get_config.
  destruct (use_redis (config (registry w))) eqn:E.
  - destruct (r_contexts (redis w) !! context_name) as [found|] eqn:Hc;
      destruct_world w; subst; exec.
    + do 2 eexists. split; [reflexivity|]. exec. naive_solver.
    + do 2 eexists. split; [reflexivity|]. exec. done.
  - destruct (contexts (registry w) !! context_name) as [found|] eqn:Hc;
      destruct_world w; subst; exec.
    + do 2 eexists. split; [reflexivity|]. exec. naive_solver.
    + do 2 eexists. split; [reflexivity|]. exec. done.
Qed.

(** X12.  Removing what the registry does not hold: in process
    [remove_context] and [unregister_agent] raise [KeyError], from [dict.pop]
    without a default; on Redis they return.  Either way nothing changes. *)
Theorem remove_what_is_not_registered (n : string) (w : World) :
  (registered_context n w = None →
   remove_context n w
     = (if use_redis (config (registry w)) then Val tt else Raise KeyError,
        w)) ∧
  (result_of (get_agent_description n) w = Val None →
   unregister_agent n w
     = (if use_redis (config (registry w)) then Val tt else Raise KeyError,
        w)).
Proof.
  unfold registered_context, remove_context, unregister_agent,
    get_agent_description, get_config.
  destruct (use_redis (config (registry w))) eqn:E.
  - split; intros H.
    + destruct_world w; subst; revert H; exec; intros H.
      by rewrite delete_id.
    + destruct (r_agents (redis w) !! n) eqn:Hn; destruct_world w; subst;
        revert H; exec; intros H; [done|]. by rewrite delete_id.
  - split; intros H.
    + destruct_world w; subst; revert H; exec; intros H. by rewrite H.
    + destruct (agents_descriptions_dict (registry w) !! n) eqn:Hn;
        destruct_world w; subst; revert H; exec; intros H; done.
Qed.

Lemma remove_what_is_not_registered_witness :
  remove_context "default" (initial_world default_config)
    = (Raise KeyError, initial_world default_config) ∧
  unregister_agent "agent1" (initial_world redis_config)
    = (Val tt, initial_world redis_config).
Proof.
  split.
  - apply (remove_what_is_not_registered "default"
             (initial_world default_config)). reflexivity.
  - apply (remove_what_is_not_registered "agent1"
             (initial_world redis_config)). reflexivity.
Defined.

(** X13.  Creating a context under a name the registry does not hold and
    removing it again gives back the very state from before, on both
    backends, and the context no longer exists. *)
Theorem create_then_remove_context (n : string) (w : World) :
  registered_context n w = None →
  (get_or_create_context n;; remove_context n) w = (Val tt, w) ∧
  result_of (get_or_create_context n;; remove_context n;;
             does_context_exist n) w = Val false.
Proof.
  unfold registered_context, get_or_create_context, remove_context,
    does_context_exist, __init__, register_context, get_config.
  destruct (use_redis (config (registry w))) eqn:E; intros H.
  - destruct_world w; subst; exec. by rewrite delete_insert_id.
  - destruct_world w; subst; exec. by rewrite delete_insert_id.
Qed.

Lemma create_then_remove_context_witness :
  (get_or_create_context "default";; remove_context "default")
    (initial_world redis_config) = (Val tt, initial_world redis_config) ∧
  result_of (get_or_create_context "default";; remove_context "default";;
             does_context_exist "default") (initial_world redis_config)
    = Val false.
Proof.
  apply (create_then_remove_context "default" (initial_world redis_config)).
  reflexivity.
Defined.

(** X14.  The directory of agents on Redis: registering a name the server
    does not hold returns; then the description read back is the one given,
    registering the name again raises [NameError] and changes nothing, and
    unregistering it gives back the state from before the registration. *)
Theorem agent_directory_on_redis (n d d' : string) (w : World) :
  use_redis (config (registry w)) = true →
  r_agents (redis w) !! n = None →
  ∃ w1,
    register_agent n d w = (Val tt, w1) ∧
    get_agent_description n w1 = (Val (Some d), w1) ∧
    register_agent n d' w1 = (Raise NameError, w1) ∧
    unregister_agent n w1 = (Val tt, w).
Proof.
  unfold register_agent, get_agent_description, unregister_agent, get_config.
  intros E Hn. destruct_world w; subst; exec.
  eexists. split; [reflexivity|]. exec.
  rewrite delete_insert_id by done. done.
Qed.

Lemma agent_directory_on_redis_witness :
  ∃ w1,
    register_agent "agent1" "first" (initial_world redis_config)
      = (Val tt, w1) ∧
    get_agent_description "agent1" w1 = (Val (Some "first"), w1) ∧
    register_agent "agent1" "second" w1 = (Raise NameError, w1) ∧
    unregister_agent "agent1" w1 = (Val tt, initial_world redis_config).
Proof.
  apply (agent_directory_on_redis "agent1" "first" "second"
           (initial_world redis_config)); reflexivity.
Defined.

(** ** What sending does *)

Lemma send_effects
    (on : queue) (self : WiseAgent) (msg : WiseAgentMessage) (dest : string)
    (w : World) :
  ∃ context w1 traced present,
    send on self msg dest w = (Val tt, w1) ∧
    registered_context (context_name msg) w1 = Some context ∧
    result_of (message_trace context) w = Val traced ∧
    result_of (message_trace context) w1
      = Val (traced ++ [stamp msg (wa_name self)]) ∧
    result_of (participants context) w1 = Val present ∧
    as_read context (wa_name self) ∈ present ∧
    transport_log w1 = transport_log w ++
      [{| sent_on := on; sent_message := stamp msg (wa_name self);
          sent_to := dest |}] ∧
    chats w1 = chats w ∧
    r_agents (redis w1) = r_agents (redis w) ∧
    agents_descriptions_dict (registry w1)
      = agents_descriptions_dict (registry w).
Proof.
  unfold registered_context, chats, as_read.
  destruct on; unfold send, send_request, send_response, get_or_create_context,
    __init__, register_context, get_config, add_participant, trace,
    transport_send, message_trace, participants.
  all: destruct_world w.
  all: repeat (exec; try split_match).
  all: do 4 eexists; (split; [reflexivity|]); (split; [exec; reflexivity|]).
  all: repeat match goal with H : _use_redis _ = _ |- _ => rewrite H end.
  all: exec.
  all: split; [reflexivity|]; split; [reflexivity|]; split; [reflexivity|].
  all: split; [|done].
  all: try match goal with
         | H : negb (py_in _ _) = false |- _ =>
             apply negb_false_iff, bool_decide_eq_true in H
         end.
  all: try done.
  all: try (apply list_elem_of_singleton; done).
  all: try match goal with
         | H : PyStr _ ∈ PyBytes ?s :: list_fmap _ _ PyBytes ?l |- _ =>
             change (PyStr (wa_name self) ∈ PyBytes <$> (s :: l)) in H;
             apply list_elem_of_fmap in H as (? & ? & ?); discriminate
         end.
  all: try match goal with
         | |- _ ∈ PyBytes ?s :: list_fmap _ _ PyBytes ?l =>
             change (PyBytes (wa_name self) ∈ PyBytes <$> (s :: l))
         end.
  all: apply list_elem_of_fmap_2.
  all: try (apply elem_of_app; right; apply list_elem_of_singleton; done).
  all: right; apply elem_of_app; right; apply list_elem_of_singleton; done.
Qed.

(** X15.  [send_request] and [send_response] always return, and do five
    things: the message goes out stamped with the sender's name, exactly one
    message is handed to the transport, on the queue of the call and for the
    destination given; the registry holds a context under the message's
    context name; the stamped message is the last of that context's trace;
    the sender is among its participants.  What the stores hold for the chats
    and the directory of agents are left as they were. *)
Theorem sending_a_message
    (on : queue) (self : WiseAgent) (msg : WiseAgentMessage) (dest : string)
    (w : World) :
  ∃ context w1 traced present,
    send on self msg dest w = (Val tt, w1) ∧
    registered_context (context_name msg) w1 = Some context ∧
    result_of (message_trace context) w = Val traced ∧
    result_of (message_trace context) w1
      = Val (traced ++ [stamp msg (wa_name self)]) ∧
    result_of (participants context) w1 = Val present ∧
    as_read context (wa_name self) ∈ present ∧
    transport_log w1 = transport_log w ++
      [{| sent_on := on; sent_message := stamp msg (wa_name self);
          sent_to := dest |}] ∧
    chats w1 = chats w ∧
    r_agents (redis w1) = r_agents (redis w) ∧
    agents_descriptions_dict (registry w1)
      = agents_descriptions_dict (registry w).
Proof. apply send_effects. Qed.

(** ** How a response is handled *)

Lemma stored_history_chats
    (self : WiseAgentContext) (chat_uuid : chat_key) (w w' : World) :
  chats w' = chats w →
  stored_history self chat_uuid w' = stored_history self chat_uuid w.
Proof.
  unfold chats, stored_history. intros H.
  destruct_world w; destruct_world w'. by simplify_eq.
Qed.

Lemma py_truthy_nonempty (s : string) : s ≠ "" → py_truthy (Some s) = true.
Proof. intros H. simpl. apply negb_true_iff. by apply String.eqb_neq. Qed.

(** X16.  Unless the collaboration is SEQUENTIAL, a non-empty response goes
    back to the sender of the request: [handle_response] returns [True] and
    hands the transport exactly one message, a response for [request.sender]
    carrying the text, this agent's name, the context's name and the chat id
    of the request.  When the collaboration is PHASED or CHAT the message is
    an ACK and the text is first appended to the history of the chat as an
    assistant message; otherwise the message has no type and what the stores
    hold for the chats is unchanged. *)
Theorem handle_response_answers_the_sender
    (self : WiseAgent) (context : WiseAgentContext) (request : WiseAgentMessage)
    (response : string) (t : option WiseAgentCollaborationType) (w : World) :
  response ≠ "" →
  t ≠ Some SEQUENTIAL →
  (is_phased_or_chat t = true → addressable context request.(chat_id)) →
  ∃ w1,
    handle_response self (Some response) request context t w = (Val true, w1) ∧
    transport_log w1 = transport_log w ++
      [{| sent_on := ResponseQueue;
          sent_message :=
            reply self context request response
              (if is_phased_or_chat t then Some ACK else None);
          sent_to := request.(sender) |}] ∧
    if is_phased_or_chat t
    then stored_history context request.(chat_id) w1
         = Some (default [] (stored_history context request.(chat_id) w)
                 ++ [{| role := "assistant"; content := response |}])
    else chats w1 = chats w.
Proof.
  intros Hne Hseq Haddr. unfold handle_response.
  rewrite py_truthy_nonempty by done. cbv beta iota zeta.
  change (default "" (Some response)) with response.
  destruct (is_phased_or_chat t) eqn:Ht.
  - destruct (append_chat_completion_stored context request.(chat_id)
                {| role := "assistant"; content := response |} w
                (Haddr eq_refl))
      as (w1 & Happ & Hst).
    destruct (send_effects ResponseQueue self
                (reply self context request response (Some ACK))
                request.(sender) w1)
      as (c & w2 & tr & pr & Hsend & _ & _ & _ & _ & _ & Hlog & Hch & _).
    exists w2. unfold bind. rewrite Happ. simpl in Hsend.
    unfold reply in Hsend. rewrite Hsend.
    split; [done|]. split.
    + rewrite Hlog.
      destruct (perform_frame context request.(chat_id) None ""
                  (Append_chat_completion
                     {| role := "assistant"; content := response |}) w)
        as (_ & _ & Hby & _).
      unfold state_after in Hby. simpl in Hby. rewrite Happ in Hby.
      unfold bystanders in Hby. simpl in Hby.
      assert (transport_log w1 = transport_log w) as -> by congruence. done.
    + by rewrite (stored_history_chats _ _ _ _ Hch).
  - rewrite bool_decide_false by done.
    destruct (send_effects ResponseQueue self
                (reply self context request response None)
                request.(sender) w)
      as (c & w2 & tr & pr & Hsend & _ & _ & _ & _ & _ & Hlog & Hch & _).
    exists w2. unfold bind.
    simpl in Hsend. unfold reply in Hsend. rewrite Hsend.
    done.
Qed.

Lemma handle_response_answers_the_sender_witness :
  ∃ w1,
    handle_response (quiet_agent "A") (Some "answer") (request_from "S")
      local_context (Some PHASED) (initial_world default_config)
      = (Val true, w1) ∧
    transport_log w1 =
      [{| sent_on := ResponseQueue;
          sent_message :=
            reply (quiet_agent "A") local_context (request_from "S") "answer"
              (Some ACK);
          sent_to := "S" |}] ∧
    stored_history local_context (Some "chat1") w1
      = Some [{| role := "assistant"; content := "answer" |}].
Proof.
  apply (handle_response_answers_the_sender (quiet_agent "A") local_context
           (request_from "S") "answer" (Some PHASED)
           (initial_world default_config)).
  - intros H. discriminate H.
  - intros H. discriminate H.
  - intros _ H. discriminate H.
Defined.

(** X17.  A sequential chat without a route: when no agent follows this one
    in the sequence and no route is set for the chat, a non-empty response is
    not sent.  [handle_response] raises [TypeError], from the [+] that builds
    the log line, and the state is what it was: nothing reached the
    transport, the trace or the participants. *)
Theorem sequential_without_route
    (self : WiseAgent) (context : WiseAgentContext) (request : WiseAgentMessage)
    (response : string) (agents_sequence : list string) (w : World) :
  response ≠ "" →
  result_of (get_agents_sequence context request.(chat_id)) w
    = Val agents_sequence →
  next_in agents_sequence (wa_name self) = None →
  result_of (get_route_response_to context request.(chat_id)) w = Val None →
  handle_response self (Some response) request context (Some SEQUENTIAL) w
    = (Raise TypeError, w).
Proof.
  intros Hne Hseq Hlast Hroute.
  apply run_eq in Hseq; [|apply get_agents_sequence_reads].
  apply run_eq in Hroute; [|apply get_route_response_to_reads].
  pose proof (get_next_agent_in_sequence_next_in context request.(chat_id)
                (wa_name self) agents_sequence w Hseq) as Hnext.
  rewrite Hlast in Hnext.
  unfold handle_response. rewrite py_truthy_nonempty by done.
  change (is_phased_or_chat (Some SEQUENTIAL)) with false.
  change (bool_decide (Some SEQUENTIAL = Some SEQUENTIAL)) with true.
  cbv beta iota zeta. unfold bind. rewrite Hnext, Hroute. reflexivity.
Qed.

Lemma sequential_without_route_witness :
  handle_response (quiet_agent "C") (Some "answer") (request_from "B")
    local_context (Some SEQUENTIAL) sequence_ABC_without_route
    = (Raise TypeError, sequence_ABC_without_route).
Proof.
  apply (sequential_without_route (quiet_agent "C") local_context
           (request_from "B") "answer" ["A"; "B"; "C"]
           sequence_ABC_without_route).
  - intros H. discriminate H.
  - reflexivity.
  - reflexivity.
  - reflexivity.
Defined.

(** X18.  [handle_request] adds nothing of its own to what [process_request]
    does.  It calls [process_request] in the state left by finding or
    creating the context; when that call returns [None] or an empty string,
    [handle_request] returns [True] in the very state the call left, so
    nothing is sent; when that call raises, [handle_request] raises the same
    exception in that state. *)
Theorem handle_request_of_a_silent_agent
    (self : WiseAgent) (request : WiseAgentMessage) (w : World) :
  ∃ context w1 t history,
    get_or_create_context request.(context_name) w = (Val context, w1) ∧
    get_collaboration_type context request.(chat_id) w1 = (Val t, w1) ∧
    get_conversation_history_if_needed self context request.(chat_id) t w1
      = (Val history, w1) ∧
    ∀ w2,
      (∀ response_str,
         process_request self request history w1 = (Val response_str, w2) →
         py_truthy response_str = false →
         handle_request self request w = (Val true, w2)) ∧
      (∀ e,
         process_request self request history w1 = (Raise e, w2) →
         handle_request self request w = (Raise e, w2)).
Proof.
  destruct (get_or_create_context_returns request.(context_name) w)
    as (context & w1 & Hctx & _).
  destruct (get_collaboration_type_reads context request.(chat_id) w1)
    as (t & Ht).
  destruct (llm_chat_completion_reads context w1) as (stored & Hs).
  pose proof (get_conversation_history_if_needed_history_for self context
                request.(chat_id) t stored w1 Hs) as Hh.
  exists context, w1, t, (history_for stored request.(chat_id) t).
  do 3 (split; [done|]). intros w2.
  unfold handle_request.
  rewrite (bind_val _ _ _ _ _ Hctx), (bind_val _ _ _ _ _ Ht),
    (bind_val _ _ _ _ _ Hh).
  split.
  - intros response_str Hp Hfalsy. rewrite (bind_val _ _ _ _ _ Hp).
    unfold handle_response. rewrite Hfalsy. reflexivity.
  - intros e Hp. unfold bind. rewrite Hp. reflexivity.
Qed.

(** ** What no series of calls does *)

Lemma NoDup_snoc_py_in (n : string) (l : list string) :
  negb (py_in (PyStr n) (PyStr <$> l)) = true → NoDup l → NoDup (l ++ [n]).
Proof.
  rewrite py_in_str_str. intros Hin%negb_true_iff%bool_decide_eq_false Hnd.
  apply NoDup_app. split; [done|]. split; [|apply NoDup_singleton].
  intros y Hy Hy'. apply list_elem_of_singleton in Hy'. by subst.
Qed.

Ltac unfold_calls :=
  unfold run_call, send, send_request, send_response, get_or_create_context,
    __init__, register_context, get_config, add_participant, trace,
    transport_send, participants, remove_context, start_agent, stop_agent,
    register_agent, unregister_agent.

Ltac run_call_case w :=
  unfold_calls; destruct_world w; repeat (exec; try split_match);
  repeat split; try done; try (by apply prefix_app_r);
  try (by apply NoDup_snoc_py_in).

Lemma run_call_keeps (c : call) (w : World) :
  let w1 := state_after (run_call c) w in
  (NoDup (_participants (ctx_class w)) →
   NoDup (_participants (ctx_class w1))) ∧
  _message_trace (ctx_class w) `prefix_of` _message_trace (ctx_class w1) ∧
  r_message_trace (redis w) `prefix_of` r_message_trace (redis w1) ∧
  transport_log w `prefix_of` transport_log w1.
Proof.
  destruct c as [self chat m|self n|self msg|on self msg dest|n|n|self|self].
  - destruct (perform_frame self chat None "" m w) as (_ & _ & Hby & _).
    unfold bystanders in Hby. simpl.
    assert (_participants (ctx_class (state_after (perform self chat m) w))
            = _participants (ctx_class w)) as -> by congruence.
    assert (_message_trace (ctx_class (state_after (perform self chat m) w))
            = _message_trace (ctx_class w)) as -> by congruence.
    assert (r_message_trace (redis (state_after (perform self chat m) w))
            = r_message_trace (redis w)) as -> by congruence.
    assert (transport_log (state_after (perform self chat m) w)
            = transport_log w) as -> by congruence.
    done.
  - run_call_case w.
  - run_call_case w.
  - destruct on; run_call_case w.
  - run_call_case w.
  - run_call_case w.
  - run_call_case w.
  - run_call_case w.
Qed.

(** X19.  In process the list of participants never holds a name twice:
    whatever series of calls is made on contexts, agents and the registry,
    each returning or raising, a list without duplicates stays without
    duplicates. *)
Theorem participants_stay_distinct_in_process (cs : list call) (w : World) :
  NoDup (_participants (ctx_class w)) →
  NoDup (_participants (ctx_class (run_calls cs w))).
Proof.
  revert w. induction cs as [|c cs IH]; intros w Hnd; simpl; [done|].
  apply IH. by apply run_call_keeps.
Qed.

Lemma participants_stay_distinct_in_process_witness :
  NoDup (_participants (ctx_class
           (run_calls some_calls (initial_world default_config)))).
Proof.
  apply (participants_stay_distinct_in_process some_calls
           (initial_world default_config)).
  simpl. constructor.
Defined.

(** X20.  No series of calls takes anything back.  The message trace on
    Redis, which holds the printed form of each message, and the log of the
    transport, which is handed each message serialized, start after the calls
    with what they held before; the in-process message trace is never
    shorter than before.  Of the in-process trace only the number of entries
    is stated: its entries are the callers' message objects, and sending the
    same object again stamps it again. *)
Theorem traces_and_transport_only_grow (cs : list call) (w : World) :
  (length (_message_trace (ctx_class w))
     ≤ length (_message_trace (ctx_class (run_calls cs w))))%nat ∧
  r_message_trace (redis w)
    `prefix_of` r_message_trace (redis (run_calls cs w)) ∧
  transport_log w `prefix_of` transport_log (run_calls cs w).
Proof.
  revert w. induction cs as [|c cs IH]; intros w; simpl; [done|].
  destruct (run_call_keeps c w) as (_ & H2 & H3 & H4).
  destruct (IH (state_after (run_call c) w)) as (I2 & I3 & I4).
  split; [|split; by etrans].
  apply prefix_length in H2. simpl in H2. lia.
Qed.

(** ** The two backends agree *)





(** ** The keys of a parsed YAML object *)

Lemma translate_items_lookup {V} (items : list (string * V))
    (copy : gmap string V) (k : string) :
  translate_items items copy !! k =
    match
      last (filter (λ kv, negb (startswith_underscore kv.1)
                          && bool_decide ("_" +:+ kv.1 = k)) items)
    with
    | Some kv => Some kv.2
    | None => copy !! k
    end.
Proof.
  revert copy. induction items as [|[key value] rest IH]; intros copy; [done|].
  simpl. rewrite filter_cons. simpl.
  destruct (startswith_underscore key) eqn:Hu; simpl.
  - rewrite IH. done.
  - rewrite IH. destruct (decide ("_" +:+ key = k)) as [<-|Hne].
    + rewrite bool_decide_true by done. simpl.
      rewrite last_cons. destruct (last _) eqn:Hl; [done|].
      by rewrite lookup_insert_eq.
    + rewrite bool_decide_false by done. simpl.
      destruct (last _); [done|]. by rewrite lookup_insert_ne.
Qed.

Lemma startswith_underscore_added (key : string) :
  startswith_underscore ("_" +:+ key) = true.
Proof. by destruct key. Qed.

Lemma NoDup_fst_functional {A B} (l : list (A * B)) (x : A) (y1 y2 : B) :
  NoDup l.*1 → (x, y1) ∈ l → (x, y2) ∈ l → y1 = y2.
Proof.
  induction l as [|[a b] l IH]; simpl; intros Hnd H1 H2.
  - by apply elem_of_nil in H1.
  - apply NoDup_cons in Hnd as [Hnot Hnd].
    apply elem_of_cons in H1 as [H1|H1], H2 as [H2|H2].
    + congruence.
    + injection H1 as -> ->. destruct Hnot.
      apply list_elem_of_fmap. by exists (a, y2).
    + injection H2 as -> ->. destruct Hnot.
      apply list_elem_of_fmap. by exists (a, y1).
    + by apply IH.
Qed.

(** X22.  [_translate_dictionary] on a dict, given by its items: every key
    that does not start with an underscore is found in the result under the
    key with one underscore in front, with its value; the result has no other
    key.  So a key that already starts with an underscore is dropped with its
    value, no key of the result is without an underscore, and none starts
    with two. *)
Theorem translate_dictionary_keys {V} (d : list (string * V)) :
  NoDup d.*1 →
  (∀ key value,
     (key, value) ∈ d → startswith_underscore key = false →
     _translate_dictionary d !! ("_" +:+ key) = Some value) ∧
  (∀ k value,
     _translate_dictionary d !! k = Some value →
     ∃ key, k = "_" +:+ key ∧ startswith_underscore key = false ∧
            (key, value) ∈ d) ∧
  (∀ k, startswith_underscore k = false →
        _translate_dictionary d !! k = None) ∧
  (∀ k, _translate_dictionary d !! ("__" +:+ k) = None).
Proof.
  intros Hnd.
  assert (∀ k value,
     _translate_dictionary d !! k = Some value →
     ∃ key, k = "_" +:+ key ∧ startswith_underscore key = false ∧
            (key, value) ∈ d) as Hback.
  { intros k value. unfold _translate_dictionary.
    rewrite translate_items_lookup.
    destruct (last _) as [[key v]|] eqn:Hl; [|by rewrite lookup_empty].
    intros [= <-]. apply last_Some_elem_of in Hl.
    apply list_elem_of_filter in Hl as [Hp Hin]. simpl in Hp.
    apply andb_prop_elim in Hp as [Hu Hk].
    apply bool_decide_unpack in Hk.
    exists key. split; [done|]. split; [|done].
    by destruct (startswith_underscore key). }
  split; [|split; [done|split]].
  - intros key value Hin Hu. unfold _translate_dictionary.
    rewrite translate_items_lookup.
    destruct (last _) as [[key' v]|] eqn:Hl.
    + apply last_Some_elem_of in Hl.
      apply list_elem_of_filter in Hl as [Hp Hin']. simpl in Hp.
      apply andb_prop_elim in Hp as [_ Hk].
      apply bool_decide_unpack in Hk.
      apply (inj (String.app "_")) in Hk as ->.
      simpl. f_equal.
      symmetry. by eapply NoDup_fst_functional.
    + apply last_None in Hl.
      assert ((key, value) ∈ filter
                (λ kv : string * V, negb (startswith_underscore kv.1)
                   && bool_decide ("_" +:+ kv.1 = "_" +:+ key)) d) as Hf.
      { apply list_elem_of_filter. split; [|done]. simpl.
        rewrite Hu, bool_decide_true by done. done. }
      rewrite Hl in Hf. by apply elem_of_nil in Hf.
  - intros k Hu. destruct (_translate_dictionary d !! k) eqn:Hk; [|done].
    apply Hback in Hk as (key & -> & _).
    by rewrite startswith_underscore_added in Hu.
  - intros k. destruct (_translate_dictionary d !! _) eqn:Hk; [|done].
    apply Hback in Hk as (key & Hkey & Hu & _).
    change ("__" +:+ k) with ("_" +:+ "_" +:+ k) in Hkey.
    apply (inj (String.app "_")) in Hkey as <-.
    by rewrite startswith_underscore_added in Hu.
Qed.

Lemma translate_dictionary_keys_witness :
  _translate_dictionary parsed_agent !! "_name" = Some "Agent1" ∧
  _translate_dictionary parsed_agent !! "name" = None ∧
  _translate_dictionary parsed_agent !! "__hidden" = None.
Proof.
  destruct (translate_dictionary_keys parsed_agent) as (Hin & _ & Hno & Hnn).
  - apply (bool_decide_unpack (NoDup parsed_agent.*1)). vm_compute. exact I.
  - split; [|split].
    + apply (Hin "name" "Agent1"); [|reflexivity].
      apply list_elem_of_here.
    + apply (Hno "name"). reflexivity.
    + apply (Hnn "hidden").
Defined.

(** ** The queues of the STOMP transport *)

(** X23.  A message published for an agent arrives on the queue of that
    agent only: the destination of a request is the request queue a transport
    subscribes to exactly when the transport is that of the agent named, and
    likewise for responses; and no request is published to a response queue,
    nor a response to a request queue. *)
Theorem request_reaches_only_its_agent
    (self : StompWiseAgentTransport) (dest_agent_name : string) :
  (request_destination dest_agent_name = request_queue self
     ↔ dest_agent_name = _agent_name self) ∧
  (response_destination dest_agent_name = response_queue self
     ↔ dest_agent_name = _agent_name self) ∧
  request_destination dest_agent_name ≠ response_queue self ∧
  response_destination dest_agent_name ≠ request_queue self.
Proof.
  unfold request_destination, response_destination, request_queue,
    response_queue.
  repeat split; try (intros ->; done).
  1,2: by intros ?%(inj (String.app _)).
  all: intros H; cbv beta iota delta [String.append] in H; discriminate.
Qed.
